(** * GPA calculator: a shallow embedding of [app.py] and its properties

    The Python program computes with [int] and [float] values; its
    specification speaks of real numbers.  The main embedding takes every
    number as an exact rational ([Q]); a decimal literal of the source such
    as [3.7] stands for the rational it denotes.  Results that are compared
    as numbers are compared with [==] ([Qeq]); results that the code returns
    as a literal ([0.0], [None]) are compared with [=].  What is proved
    there about the value of a quotient, a bound or an equality between two
    computations is a statement in exact arithmetic.

    The interpreter rounds every operation to binary64.  Module [F64]
    embeds the same functions over primitive floats, for the concrete runs
    where the rounding shows.

    Python's true division raises [ZeroDivisionError] on a zero divisor and
    the [st.error] / [st.warning] calls of the Streamlit layer are effects;
    both are kept, in a small writer-and-exception monad [Py]. *)

From Stdlib Require Import QArith Qfield Lqa.
From Stdlib Require Import PrimFloat.
From stdpp Require Import gmap strings list pretty.

#[local] Set Warnings "-inexact-float".

Local Open Scope Q_scope.

(** ** Numbers *)

Module Num.

(** Python's [a == b], [a < b] and [a > b] on numbers. *)
Definition eqb (a b : Q) : bool := Qeq_bool a b.
Definition ltb (a b : Q) : bool := negb (Qle_bool b a).
Definition gtb (a b : Q) : bool := ltb b a.

(** Python's [sum(xs)]: starts from [0] and adds from the left. *)
Definition sum (xs : list Q) : Q := fold_left Qplus xs 0.

End Num.

(** ** Effects *)

Inductive exn : Type :=
| ZeroDivisionError.

(** What the program shows through [st.error] and [st.warning]. *)
Inductive ui_msg : Type :=
| st_error (text : string)
| st_warning (text : string).

Inductive outcome (A : Type) : Type :=
| Return (a : A)
| Raise (e : exn).

Arguments Return {A} a.
Arguments Raise {A} e.

(** A run of Python code: the messages shown, in order, and how it ended. *)
Definition Py (A : Type) : Type := (list ui_msg * outcome A)%type.

#[global] Instance Py_ret : MRet Py := fun A a => ([], Return a).

#[global] Instance Py_bind : MBind Py := fun A B k c =>
  match c with
  | (out, Return a) => let '(out', r) := k a in (out ++ out', r)
  | (out, Raise e) => (out, Raise e)
  end.

Definition raise {A} (e : exn) : Py A := ([], Raise e).

Definition show (m : ui_msg) : Py unit := ([m], Return tt).

(** Python's [a / b]. *)
Definition truediv (a b : Q) : Py Q :=
  if Num.eqb b 0 then raise ZeroDivisionError else mret (a / b).

(** The spec's [InvalidInput] failure, as the code signals it: a message is
    shown with [st.error] and no number comes back. *)
Definition InvalidInput (r : Py (option Q)) : Prop :=
  r.2 = Return None /\ exists text, In (st_error text) r.1.

(** A run that shows nothing and hands back the number [v]. *)
Definition yields (r : Py (option Q)) (v : Q) : Prop :=
  exists x, r = ([], Return (Some x)) /\ x == v.

(** ** Grade Point Mapper: [get_grade_point] *)

(** A grade point: a number, or [None] for a course left out of the GPA. *)
Abbreviation grade_point := (option Q).

Definition grade_map : gmap string grade_point :=
  list_to_map
    [ ("A+", Some 4.0); ("A", Some 4.0); ("A-", Some 3.7);
      ("B+", Some 3.3); ("B", Some 3.0); ("B-", Some 2.7);
      ("C+", Some 2.3); ("C", Some 2.0); ("C-", Some 1.7);
      ("D+", Some 1.3); ("D", Some 1.0); ("D-", Some 0.7);
      ("F", Some 0.0);
      ("Pass", None);
      ("Fail", Some 0.0) ]%string.

(** [grade_map.get(grade, 0.0)] *)
Definition get_grade_point (grade : string) : grade_point :=
  match grade_map !! grade with
  | Some gp => gp
  | None => Some 0.0
  end.

(** The symbols of the table. *)
Definition grade_symbols : list string :=
  [ "A+"; "A"; "A-"; "B+"; "B"; "B-"; "C+"; "C"; "C-";
    "D+"; "D"; "D-"; "F"; "Pass"; "Fail" ]%string.

(** ** GPA Aggregator: [calculate_gpa] *)

(** [sum(c * gp for c, gp in zip(..) if gp is not None)] and
    [sum(c for c, gp in zip(..) if gp is not None)]: the generator keeps the
    pairs whose grade point is not [None], in order. *)
Definition counted_points (pairs : list (Q * grade_point)) : list Q :=
  omap (fun '(c, gp) => match gp with Some g => Some (c * g) | None => None end) pairs.

Definition counted_credits (pairs : list (Q * grade_point)) : list Q :=
  omap (fun '(c, gp) => match gp with Some _ => Some c | None => None end) pairs.

Definition calculate_gpa (credits_list : list Q) (grade_points_list : list grade_point)
  : Py Q :=
  let total_grade_points := Num.sum (counted_points (zip credits_list grade_points_list)) in
  let total_credits := Num.sum (counted_credits (zip credits_list grade_points_list)) in
  if Num.eqb total_credits 0 then mret 0.0
  else truediv total_grade_points total_credits.

(** ** Cumulative GPA Combiner: [calculate_cumulative_gpa] *)

Definition calculate_cumulative_gpa
    (current_gpa current_credits new_gpa new_credits : Q) : Py (option Q) :=
  if Num.ltb current_credits 0 || Num.ltb new_credits 0 then
    show (st_error "Credits cannot be negative.");;
    mret None
  else
    let current_total_grade_points := current_gpa * current_credits in
    let new_total_grade_points := new_gpa * new_credits in
    let combined_total_credits := current_credits + new_credits in
    let combined_total_grade_points :=
      current_total_grade_points + new_total_grade_points in
    if Num.eqb combined_total_credits 0 then mret (Some 0.0)
    else
      v ← truediv combined_total_grade_points combined_total_credits;
      mret (Some v).

(** ** Required-GPA Projector: the "What If Scenario" tab *)

(** The two choices of the [scenario_type] radio button. *)
Inductive scenario : Type :=
| no_grades_yet      (* "I haven't gotten any grades yet" *)
| know_some_grades.  (* "I know some of my grades" *)

Definition knows_grades (s : scenario) : bool :=
  match s with know_some_grades => true | no_grades_yet => false end.

(** The variables the tab sets up before the button is looked at. *)
Record known_vars : Type := {
  known_credits : Q;
  known_grade_points : Q;
  remaining_credits : Q
}.

(** The set-up of [known_credits], [known_grade_points] and
    [remaining_credits].  [known_classes] holds, per class with a known
    grade, the [(k_credits, k_gpa)] the loop appends to [known_credits_list]
    and [known_gpa_list]; the classes are asked for only when the scenario is
    "I know some of my grades" and [next_semester_credits > 0]. *)
Definition known_grades_section (scenario_type : scenario)
    (next_semester_credits : Q) (known_classes : list (Q * Q)) : Py known_vars :=
  if knows_grades scenario_type && Num.gtb next_semester_credits 0 then
    let known_credits_list := known_classes.*1 in
    let known_gpa_list := known_classes.*2 in
    let known_credits := Num.sum known_credits_list in
    let known_grade_points :=
      Num.sum ((fun '(c, g) => c * g) <$> zip known_credits_list known_gpa_list) in
    let remaining_credits := next_semester_credits - known_credits in
    (if Num.ltb remaining_credits 0
     then show (st_error "Known credits exceed total next semester credits.")
     else mret tt);;
    mret {| known_credits := known_credits;
            known_grade_points := known_grade_points;
            remaining_credits := remaining_credits |}
  else
    mret {| known_credits := 0;
            known_grade_points := 0;
            remaining_credits := next_semester_credits |}.

(** The handler of the "Calculate Required Next Semester GPA" button, up to
    the value of [required_gpa_remaining]; [None] when a branch shows a
    message and computes nothing.  The block that then displays the value,
    with [st.error], [st.info] or [st.success] as [result_band] tells, is
    not part of the run: the messages of a run are those shown before the
    value is there. *)
Definition required_gpa_handler
    (current_gpa current_credits desired_gpa next_semester_credits : Q)
    (scenario_type : scenario) (kv : known_vars) : Py (option Q) :=
  if Num.eqb (current_credits + next_semester_credits) 0 then
    show (st_error "Cannot calculate if total credits are zero. Please enter valid credit values.");;
    mret None
  else if Num.eqb next_semester_credits 0 then
    show (st_warning "You need to take credits next semester to change your GPA.");;
    mret None
  else if knows_grades scenario_type && Num.ltb (remaining_credits kv) 0 then
    show (st_error "Known credits exceed total next semester credits. Please check your inputs.");;
    mret None
  else
    let total_credits_after_next := current_credits + next_semester_credits in
    let desired_total_grade_points := desired_gpa * total_credits_after_next in
    let current_total_grade_points := current_gpa * current_credits in
    required_gpa_remaining ←
      (if knows_grades scenario_type then
         let grade_points_needed_remaining :=
           desired_total_grade_points - current_total_grade_points
           - known_grade_points kv in
         if Num.gtb (remaining_credits kv) 0
         then truediv grade_points_needed_remaining (remaining_credits kv)
         else mret 0.0
       else
         let grade_points_needed_next_semester :=
           desired_total_grade_points - current_total_grade_points in
         if Num.gtb next_semester_credits 0
         then truediv grade_points_needed_next_semester next_semester_credits
         else mret 0.0);
    mret (Some required_gpa_remaining).

(** The tab as a whole: set-up, then the button. *)
Definition what_if_scenario
    (current_gpa current_credits desired_gpa next_semester_credits : Q)
    (scenario_type : scenario) (known_classes : list (Q * Q)) : Py (option Q) :=
  kv ← known_grades_section scenario_type next_semester_credits known_classes;
  required_gpa_handler current_gpa current_credits desired_gpa
    next_semester_credits scenario_type kv.

(** The three result messages: which one the value leads to. *)
Inductive band : Type := unattainable | already_reached | attainable.

Definition result_band (required_gpa_remaining : Q) : band :=
  if Num.gtb required_gpa_remaining 4.0 then unattainable
  else if Num.ltb required_gpa_remaining 0.0 then already_reached
  else attainable.

(** ** The "Current Semester Performance" tab *)

(** The loop over the classes of the semester.  [classes] holds the
    [(credits, gpa)] entered for each class, which the loop appends to
    [semester_credits_list] and [semester_gpa_list]; [i] is the index of the
    first of them.  A class with negative credits gets an error message that
    names it (counting from 1) and clears [valid_entries]. *)
Fixpoint enter_classes (i : nat) (classes : list (Q * Q)) (valid_entries : bool)
  : Py bool :=
  match classes with
  | [] => mret valid_entries
  | (credits, gpa) :: classes' =>
      valid_entries' ←
        (if Num.ltb credits 0 then
           show (st_error ("Class " +:+ pretty (i + 1)%nat
                           +:+ ": Credits must be a non-negative number."));;
           mret false
         else mret valid_entries);
      enter_classes (S i) classes' valid_entries'
  end.

(** What the button of the tab computes. *)
Record semester_result : Type := {
  semester_gpa : Q;
  semester_total_credits : Q;
  updated_overall_gpa : option Q;
  updated_total_credits : Q
}.

(** The handler of the "Calculate Semester & Overall GPA" button, up to the
    values it goes on to display; [None] when it shows the warning and
    computes nothing. *)
Definition semester_handler (current_overall_gpa current_overall_credits : Q)
    (valid_entries : bool) (semester_credits_list semester_gpa_list : list Q)
  : Py (option semester_result) :=
  if negb valid_entries || Num.eqb (Num.sum semester_credits_list) 0 then
    show (st_warning "Please enter valid credits and GPA for all classes.");;
    mret None
  else
    let semester_total_credits := Num.sum semester_credits_list in
    let semester_total_grade_points :=
      Num.sum ((fun '(c, g) => c * g) <$> zip semester_credits_list semester_gpa_list) in
    semester_gpa ←
      (if Num.gtb semester_total_credits 0
       then truediv semester_total_grade_points semester_total_credits
       else mret 0.0);
    updated_overall_gpa ←
      calculate_cumulative_gpa current_overall_gpa current_overall_credits
        semester_gpa semester_total_credits;
    let updated_total_credits := current_overall_credits + semester_total_credits in
    mret (Some {| semester_gpa := semester_gpa;
                  semester_total_credits := semester_total_credits;
                  updated_overall_gpa := updated_overall_gpa;
                  updated_total_credits := updated_total_credits |}).

(** The tab as a whole: the classes are entered, then the button. *)
Definition current_semester_performance
    (current_overall_gpa current_overall_credits : Q) (classes : list (Q * Q))
  : Py (option semester_result) :=
  valid_entries ← enter_classes 0 classes true;
  semester_handler current_overall_gpa current_overall_credits valid_entries
    classes.*1 classes.*2.

(** ** The aggregate as the specification words it

    "Numerator = sum over non-excluded pairs of (credit x point).
    Denominator = sum over non-excluded pairs of credit", the pairs being
    taken positionally. *)

Fixpoint numerator (credits : list Q) (points : list grade_point) : Q :=
  match credits, points with
  | c :: credits', Some g :: points' => c * g + numerator credits' points'
  | _ :: credits', None :: points' => numerator credits' points'
  | _, _ => 0
  end.

Fixpoint denominator (credits : list Q) (points : list grade_point) : Q :=
  match credits, points with
  | c :: credits', Some _ :: points' => c + denominator credits' points'
  | _ :: credits', None :: points' => denominator credits' points'
  | _, _ => 0
  end.

(** [min(points)] and [max(points)]; undefined on the empty sequence. *)
Definition min_of (xs : list Q) : option Q :=
  match xs with
  | [] => None
  | x :: xs' => Some (fold_left (fun m y => if Num.ltb y m then y else m) xs' x)
  end.

Definition max_of (xs : list Q) : option Q :=
  match xs with
  | [] => None
  | x :: xs' => Some (fold_left (fun m y => if Num.gtb y m then y else m) xs' x)
  end.

(** A run that ends in an exception or shows an error message. *)
Definition fails {A} (r : Py A) : Prop :=
  (exists e, r.2 = Raise e) \/ (exists text, In (st_error text) r.1).

(** The known credits and known grade points of the specification: the
    totals over the classes whose grade is known. *)
Definition known_credit_total (known_classes : list (Q * Q)) : Q :=
  foldr (fun k acc => k.1 + acc) 0 known_classes.

Definition known_point_total (known_classes : list (Q * Q)) : Q :=
  foldr (fun k acc => k.1 * k.2 + acc) 0 known_classes.

(** The error messages expected from entering [classes], the first of
    which has index [i]: one per class with negative credits, in order. *)
Fixpoint entry_errors (i : nat) (classes : list (Q * Q)) : list ui_msg :=
  match classes with
  | [] => []
  | (credits, _) :: classes' =>
      (if Num.ltb credits 0
       then [st_error ("Class " +:+ pretty (i + 1)%nat
                       +:+ ": Credits must be a non-negative number.")]
       else [])
      ++ entry_errors (S i) classes'
  end.

(** ** The same code in the interpreter's arithmetic

    Python's [float] is IEEE 754 binary64 and every [+], [-], [*], [/] of the
    source rounds to nearest.  The functions of the two calculators are
    embedded a second time over Rocq's primitive binary64 floats, operation
    by operation in the order of the source, for the runs where the
    rounding decides what comes out.  An [int] of the source (credits from a
    widget with an integer step, the literal [0]) is taken as the float of
    the same value: Python's integer arithmetic and its conversion of an
    integer to a float are exact below 2^53, where the two agree. *)

Module F64.

Local Open Scope float_scope.

Definition eqb (a b : float) : bool := PrimFloat.eqb a b.
Definition ltb (a b : float) : bool := PrimFloat.ltb a b.
Definition gtb (a b : float) : bool := ltb b a.

(** The two ways CPython adds floats in [sum]: one addition per item (up
    to 3.11), or with Neumaier's running compensation (from 3.12). *)
Inductive summation : Type := plain | compensated.

(** One item of the compensated loop: [t = f_result + x]; the part of the
    smaller operand lost in [t] is added to [c]. *)
Definition compensated_step (acc : float * float) (x : float) : float * float :=
  let '(f_result, c) := acc in
  let t := f_result + x in
  let c' :=
    if PrimFloat.leb (PrimFloat.abs x) (PrimFloat.abs f_result)
    then c + ((f_result - t) + x)
    else c + ((x - t) + f_result) in
  (t, c').

(** Python's [sum(xs)] on floats: the first item is added to the start
    value [0], the others by the loop for floats. *)
Definition sum (alg : summation) (xs : list float) : float :=
  match xs with
  | [] => 0
  | x :: xs' =>
      match alg with
      | plain => fold_left PrimFloat.add xs' (0 + x)
      | compensated =>
          let '(f_result, c) := fold_left compensated_step xs' (0 + x, 0) in
          if negb (eqb c 0) && PrimFloat.is_finite c then f_result + c else f_result
      end
  end.

(** Python's [a / b] on floats. *)
Definition truediv (a b : float) : Py float :=
  if eqb b 0 then raise ZeroDivisionError else mret (a / b).

Definition counted_points (pairs : list (float * option float)) : list float :=
  omap (fun '(c, gp) => match gp with Some g => Some (c * g) | None => None end) pairs.

Definition counted_credits (pairs : list (float * option float)) : list float :=
  omap (fun '(c, gp) => match gp with Some _ => Some c | None => None end) pairs.

Definition calculate_gpa (alg : summation)
    (credits_list : list float) (grade_points_list : list (option float)) : Py float :=
  let total_grade_points := sum alg (counted_points (zip credits_list grade_points_list)) in
  let total_credits := sum alg (counted_credits (zip credits_list grade_points_list)) in
  if eqb total_credits 0 then mret 0
  else truediv total_grade_points total_credits.

Definition calculate_cumulative_gpa
    (current_gpa current_credits new_gpa new_credits : float) : Py (option float) :=
  if ltb current_credits 0 || ltb new_credits 0 then
    show (st_error "Credits cannot be negative.");;
    mret None
  else
    let current_total_grade_points := current_gpa * current_credits in
    let new_total_grade_points := new_gpa * new_credits in
    let combined_total_credits := current_credits + new_credits in
    let combined_total_grade_points :=
      current_total_grade_points + new_total_grade_points in
    if eqb combined_total_credits 0 then mret (Some 0)
    else
      v ← truediv combined_total_grade_points combined_total_credits;
      mret (Some v).

Record known_vars : Type := {
  known_credits : float;
  known_grade_points : float;
  remaining_credits : float
}.

Definition known_grades_section (alg : summation) (scenario_type : scenario)
    (next_semester_credits : float) (known_classes : list (float * float))
  : Py known_vars :=
  if knows_grades scenario_type && gtb next_semester_credits 0 then
    let known_credits_list := known_classes.*1 in
    let known_gpa_list := known_classes.*2 in
    let known_credits := sum alg known_credits_list in
    let known_grade_points :=
      sum alg ((fun '(c, g) => c * g) <$> zip known_credits_list known_gpa_list) in
    let remaining_credits := next_semester_credits - known_credits in
    (if ltb remaining_credits 0
     then show (st_error "Known credits exceed total next semester credits.")
     else mret tt);;
    mret {| known_credits := known_credits;
            known_grade_points := known_grade_points;
            remaining_credits := remaining_credits |}
  else
    mret {| known_credits := 0;
            known_grade_points := 0;
            remaining_credits := next_semester_credits |}.

Definition required_gpa_handler
    (current_gpa current_credits desired_gpa next_semester_credits : float)
    (scenario_type : scenario) (kv : known_vars) : Py (option float) :=
  if eqb (current_credits + next_semester_credits) 0 then
    show (st_error "Cannot calculate if total credits are zero. Please enter valid credit values.");;
    mret None
  else if eqb next_semester_credits 0 then
    show (st_warning "You need to take credits next semester to change your GPA.");;
    mret None
  else if knows_grades scenario_type && ltb (remaining_credits kv) 0 then
    show (st_error "Known credits exceed total next semester credits. Please check your inputs.");;
    mret None
  else
    let total_credits_after_next := current_credits + next_semester_credits in
    let desired_total_grade_points := desired_gpa * total_credits_after_next in
    let current_total_grade_points := current_gpa * current_credits in
    required_gpa_remaining ←
      (if knows_grades scenario_type then
         let grade_points_needed_remaining :=
           desired_total_grade_points - current_total_grade_points
           - known_grade_points kv in
         if gtb (remaining_credits kv) 0
         then truediv grade_points_needed_remaining (remaining_credits kv)
         else mret 0
       else
         let grade_points_needed_next_semester :=
           desired_total_grade_points - current_total_grade_points in
         if gtb next_semester_credits 0
         then truediv grade_points_needed_next_semester next_semester_credits
         else mret 0);
    mret (Some required_gpa_remaining).

Definition what_if_scenario (alg : summation)
    (current_gpa current_credits desired_gpa next_semester_credits : float)
    (scenario_type : scenario) (known_classes : list (float * float))
  : Py (option float) :=
  kv ← known_grades_section alg scenario_type next_semester_credits known_classes;
  required_gpa_handler current_gpa current_credits desired_gpa
    next_semester_credits scenario_type kv.

End F64.

(** * Properties *)

(** ** Comparisons and sums *)

Lemma eqb_true (a b : Q) : Num.eqb a b = true <-> a == b.
Proof. apply Qeq_bool_iff. Qed.

Lemma eqb_false (a b : Q) : Num.eqb a b = false <-> ~ a == b.
Proof.
  unfold Num.eqb. split.
  - apply Qeq_bool_neq.
  - intros Hne. destruct (Qeq_bool a b) eqn:E; [|reflexivity].
    apply Qeq_bool_iff in E. contradiction.
Qed.

Lemma ltb_true (a b : Q) : Num.ltb a b = true <-> a < b.
Proof.
  unfold Num.ltb. rewrite negb_true_iff.
  destruct (Qle_bool b a) eqn:E.
  - apply Qle_bool_iff in E. split; [discriminate | lra].
  - split; [intros _ | reflexivity].
    destruct (Qlt_le_dec a b) as [Hlt | Hle]; [exact Hlt |].
    apply Qle_bool_iff in Hle. congruence.
Qed.

Lemma ltb_false (a b : Q) : Num.ltb a b = false <-> b <= a.
Proof.
  destruct (Num.ltb a b) eqn:E.
  - apply ltb_true in E. split; [discriminate | lra].
  - split; [intros _ | reflexivity].
    destruct (Qlt_le_dec a b) as [Hlt | Hle]; [| exact Hle].
    apply ltb_true in Hlt. congruence.
Qed.

Lemma gtb_true (a b : Q) : Num.gtb a b = true <-> b < a.
Proof. apply ltb_true. Qed.

Lemma gtb_false (a b : Q) : Num.gtb a b = false <-> a <= b.
Proof. apply ltb_false. Qed.

Lemma fold_left_Qplus_acc (xs : list Q) (a : Q) :
  fold_left Qplus xs a == a + fold_left Qplus xs 0.
Proof.
  revert a. induction xs as [| x xs IH]; intros a; simpl.
  - ring.
  - rewrite (IH (a + x)), (IH (0 + x)). ring.
Qed.

Lemma sum_nil : Num.sum [] = 0.
Proof. reflexivity. Qed.

Lemma sum_cons (x : Q) (xs : list Q) : Num.sum (x :: xs) == x + Num.sum xs.
Proof.
  unfold Num.sum. simpl. rewrite fold_left_Qplus_acc. ring.
Qed.

(** Division with a divisor known to be non-zero returns the quotient. *)
Lemma truediv_nonzero (a b : Q) : ~ b == 0 -> truediv a b = ([], Return (a / b)).
Proof.
  intros Hb. unfold truediv. apply eqb_false in Hb. rewrite Hb. reflexivity.
Qed.

Lemma truediv_zero (a b : Q) : b == 0 -> truediv a b = ([], Raise ZeroDivisionError).
Proof.
  intros Hb. unfold truediv. apply eqb_true in Hb. rewrite Hb. reflexivity.
Qed.

(** ** Grade Point Mapper *)

(** C4: [get_grade_point] returns the value of the fixed table for each of
    its fifteen symbols ([None], the excluded marker, for "Pass"), and
    [0.0] for every string that is not a symbol of the table; as a total
    function it raises nothing. *)
Theorem get_grade_point_table :
  get_grade_point "A+" = Some 4.0 /\ get_grade_point "A" = Some 4.0 /\
  get_grade_point "A-" = Some 3.7 /\ get_grade_point "B+" = Some 3.3 /\
  get_grade_point "B" = Some 3.0 /\ get_grade_point "B-" = Some 2.7 /\
  get_grade_point "C+" = Some 2.3 /\ get_grade_point "C" = Some 2.0 /\
  get_grade_point "C-" = Some 1.7 /\ get_grade_point "D+" = Some 1.3 /\
  get_grade_point "D" = Some 1.0 /\ get_grade_point "D-" = Some 0.7 /\
  get_grade_point "F" = Some 0.0 /\ get_grade_point "Fail" = Some 0.0 /\
  get_grade_point "Pass" = None /\
  forall grade : string, ~ In grade grade_symbols -> get_grade_point grade = Some 0.0.
Proof.
  repeat (split; [vm_compute; reflexivity |]).
  intros grade Hnotin. unfold get_grade_point, grade_map.
  cbn [list_to_map foldr uncurry].
  assert (Hne : forall k, In k grade_symbols -> k <> grade)
    by (intros k Hk ->; exact (Hnotin Hk)).
  rewrite !lookup_insert_ne by (apply Hne; cbn; tauto).
  rewrite lookup_empty. reflexivity.
Qed.

Lemma get_grade_point_table_witness :
  ~ In "A*"%string grade_symbols /\ get_grade_point "A*" = Some 0.0.
Proof.
  assert (Hnotin : ~ In "A*"%string grade_symbols).
  { cbn. intros H. repeat (destruct H as [H | H]; [discriminate H |]). exact H. }
  split; [exact Hnotin |].
  apply get_grade_point_table. exact Hnotin.
Defined.

(** The symbols listed are exactly the keys of [grade_map]. *)
Lemma grade_symbols_dom (grade : string) :
  In grade grade_symbols <-> is_Some (grade_map !! grade).
Proof.
  split.
  - cbn. intros H.
    repeat (destruct H as [<- | H]; [vm_compute; eauto |]). destruct H.
  - intros Hsome. destruct (decide (In grade grade_symbols)) as [Hin | Hnotin];
      [exact Hin |].
    exfalso. unfold grade_map in Hsome. cbn [list_to_map foldr uncurry] in Hsome.
    assert (Hne : forall k, In k grade_symbols -> k <> grade)
      by (intros k Hk ->; exact (Hnotin Hk)).
    rewrite !lookup_insert_ne in Hsome by (apply Hne; cbn; tauto).
    rewrite lookup_empty in Hsome. destruct Hsome as [x Hx]. discriminate Hx.
Qed.

(** ** Cumulative GPA Combiner *)

Lemma calculate_cumulative_gpa_nonneg (g c g' c' : Q) :
  0 <= c -> 0 <= c' ->
  calculate_cumulative_gpa g c g' c' =
    if Num.eqb (c + c') 0 then ([], Return (Some 0.0))
    else ([], Return (Some ((g * c + g' * c') / (c + c')))).
Proof.
  intros Hc Hc'. unfold calculate_cumulative_gpa.
  apply ltb_false in Hc, Hc'. rewrite Hc, Hc'. cbn [orb].
  destruct (Num.eqb (c + c') 0) eqn:E; [reflexivity |].
  apply eqb_false in E. rewrite (truediv_nonzero _ _ E). reflexivity.
Qed.

(** With non-negative credits the combiner returns a number whose product
    with the combined credits is the combined grade points. *)
Lemma calculate_cumulative_gpa_points (g c g' c' : Q) :
  0 <= c -> 0 <= c' ->
  exists u, calculate_cumulative_gpa g c g' c' = ([], Return (Some u)) /\
            u * (c + c') == g * c + g' * c' /\
            (c + c' == 0 -> u = 0.0).
Proof.
  intros Hc Hc'. rewrite (calculate_cumulative_gpa_nonneg g c g' c' Hc Hc').
  destruct (Num.eqb (c + c') 0) eqn:E.
  - apply eqb_true in E. exists 0.0. split; [reflexivity |].
    assert (Hc0 : c == 0) by lra. assert (Hc0' : c' == 0) by lra.
    split; [rewrite Hc0, Hc0'; ring | reflexivity].
  - apply eqb_false in E. eexists. split; [reflexivity |].
    split; [field; exact E | intros E'; contradiction].
Qed.

(** C3: with non-negative prior and new credits, [calculate_cumulative_gpa]
    returns [0.0] when the combined credits are zero and otherwise
    (priorGPA x priorCredits + newGPA x newCredits) / (priorCredits +
    newCredits), showing no message; and on (3.0, 60, 4.0, 15) the result
    is 3.2. *)
Theorem calculate_cumulative_gpa_formula (g c g' c' : Q) :
  0 <= c -> 0 <= c' ->
  (c + c' == 0 -> calculate_cumulative_gpa g c g' c' = ([], Return (Some 0.0))) /\
  (~ c + c' == 0 ->
     calculate_cumulative_gpa g c g' c' =
       ([], Return (Some ((g * c + g' * c') / (c + c'))))) /\
  yields (calculate_cumulative_gpa 3.0 60 4.0 15) 3.2.
Proof.
  intros Hc Hc'. rewrite (calculate_cumulative_gpa_nonneg g c g' c' Hc Hc').
  repeat split.
  - intros E. apply eqb_true in E. rewrite E. reflexivity.
  - intros E. apply eqb_false in E. rewrite E. reflexivity.
  - eexists. split; [vm_compute; reflexivity | reflexivity].
Qed.

Lemma calculate_cumulative_gpa_formula_witness :
  calculate_cumulative_gpa 3.0 60 3.7 15 =
    ([], Return (Some ((3.0 * 60 + 3.7 * 15) / (60 + 15)))).
Proof.
  apply (calculate_cumulative_gpa_formula 3.0 60 3.7 15); [lra | lra |].
  intros E. vm_compute in E. discriminate E.
Defined.

(** C6: when the prior credits or the new credits are negative,
    [calculate_cumulative_gpa] shows the error "Credits cannot be negative."
    and returns [None], which is the [InvalidInput] failure; so it does on
    (3.0, -5, 3.5, 10). *)
Theorem calculate_cumulative_gpa_negative (g c g' c' : Q) :
  c < 0 \/ c' < 0 ->
  calculate_cumulative_gpa g c g' c' =
    ([st_error "Credits cannot be negative."], Return None) /\
  InvalidInput (calculate_cumulative_gpa g c g' c') /\
  InvalidInput (calculate_cumulative_gpa 3.0 (-5) 3.5 10).
Proof.
  intros Hneg.
  assert (Hrun : forall a b a' b', b < 0 \/ b' < 0 ->
            calculate_cumulative_gpa a b a' b' =
              ([st_error "Credits cannot be negative."], Return None)).
  { intros a b a' b' H. unfold calculate_cumulative_gpa.
    assert (Hor : Num.ltb b 0 || Num.ltb b' 0 = true).
    { apply orb_true_iff. destruct H as [H | H]; [left | right];
        apply ltb_true; exact H. }
    rewrite Hor. reflexivity. }
  assert (Hinv : forall a b a' b', b < 0 \/ b' < 0 ->
            InvalidInput (calculate_cumulative_gpa a b a' b')).
  { intros a b a' b' H. rewrite (Hrun a b a' b' H). split; [reflexivity |].
    eexists. left. reflexivity. }
  split; [apply Hrun; exact Hneg |].
  split; [apply Hinv; exact Hneg |].
  apply Hinv. left. reflexivity.
Qed.

Lemma calculate_cumulative_gpa_negative_witness :
  InvalidInput (calculate_cumulative_gpa 3.0 (-5) 3.5 10).
Proof.
  apply (calculate_cumulative_gpa_negative 3.0 (-5) 3.5 10).
  left. reflexivity.
Defined.

(** ** GPA Aggregator *)

Lemma counted_credits_sum (cs : list Q) (gps : list grade_point) :
  Num.sum (counted_credits (zip cs gps)) == denominator cs gps.
Proof.
  revert gps. induction cs as [| c cs IH]; intros [| [g |] gps];
    try reflexivity.
  - change (counted_credits (zip (c :: cs) (Some g :: gps)))
      with (c :: counted_credits (zip cs gps)).
    rewrite sum_cons, IH. reflexivity.
  - apply IH.
Qed.

Lemma counted_points_sum (cs : list Q) (gps : list grade_point) :
  Num.sum (counted_points (zip cs gps)) == numerator cs gps.
Proof.
  revert gps. induction cs as [| c cs IH]; intros [| [g |] gps];
    try reflexivity.
  - change (counted_points (zip (c :: cs) (Some g :: gps)))
      with (c * g :: counted_points (zip cs gps)).
    rewrite sum_cons, IH. reflexivity.
  - apply IH.
Qed.

(** What [calculate_gpa] does, on lists of any lengths: the guard on
    [total_credits] keeps the division from raising. *)
Lemma calculate_gpa_cases (cs : list Q) (gps : list grade_point) :
  (denominator cs gps == 0 /\ calculate_gpa cs gps = ([], Return 0.0)) \/
  (~ denominator cs gps == 0 /\
   exists v, calculate_gpa cs gps = ([], Return v) /\
             v == numerator cs gps / denominator cs gps).
Proof.
  unfold calculate_gpa.
  destruct (Num.eqb (Num.sum (counted_credits (zip cs gps))) 0) eqn:E.
  - left. apply eqb_true in E. rewrite counted_credits_sum in E.
    split; [exact E | reflexivity].
  - right. apply eqb_false in E. rewrite (truediv_nonzero _ _ E).
    rewrite counted_credits_sum in E. split; [exact E |].
    eexists. split; [reflexivity |].
    rewrite counted_points_sum, counted_credits_sum. reflexivity.
Qed.

Lemma zip_excluded_pair (cs1 cs2 : list Q) (gps1 gps2 : list grade_point) (c : Q) :
  length cs1 = length gps1 ->
  counted_points (zip (cs1 ++ c :: cs2) (gps1 ++ None :: gps2)) =
    counted_points (zip (cs1 ++ cs2) (gps1 ++ gps2)) /\
  counted_credits (zip (cs1 ++ c :: cs2) (gps1 ++ None :: gps2)) =
    counted_credits (zip (cs1 ++ cs2) (gps1 ++ gps2)).
Proof.
  intros Hlen. unfold counted_points, counted_credits.
  rewrite !zip_with_app by exact Hlen. rewrite !omap_app. cbn. split; reflexivity.
Qed.

(** C1: on lists of equal length, [calculate_gpa] returns exactly [0.0]
    when the credits of the non-excluded pairs sum to 0 (so on empty lists),
    and otherwise the sum of credit x point over the non-excluded pairs
    divided by the sum of their credits; a pair whose point is the excluded
    marker changes neither sum, wherever it stands. *)
Theorem calculate_gpa_weighted_mean (cs : list Q) (gps : list grade_point) :
  length cs = length gps ->
  (denominator cs gps == 0 -> calculate_gpa cs gps = ([], Return 0.0)) /\
  (~ denominator cs gps == 0 ->
     exists v, calculate_gpa cs gps = ([], Return v) /\
               v == numerator cs gps / denominator cs gps) /\
  calculate_gpa [] [] = ([], Return 0.0) /\
  (forall (cs1 cs2 : list Q) (gps1 gps2 : list grade_point) (c : Q),
     cs = cs1 ++ c :: cs2 -> gps = gps1 ++ None :: gps2 ->
     length cs1 = length gps1 ->
     calculate_gpa cs gps = calculate_gpa (cs1 ++ cs2) (gps1 ++ gps2)).
Proof.
  intros _. repeat split.
  - intros Hden. destruct (calculate_gpa_cases cs gps) as [[_ Hrun] | [Hne _]];
      [exact Hrun | contradiction].
  - intros Hden. destruct (calculate_gpa_cases cs gps) as [[Hz _] | [_ Hrun]];
      [contradiction | exact Hrun].
  - intros cs1 cs2 gps1 gps2 c -> -> Hlen. unfold calculate_gpa.
    destruct (zip_excluded_pair cs1 cs2 gps1 gps2 c Hlen) as [-> ->].
    reflexivity.
Qed.

Lemma calculate_gpa_weighted_mean_witness :
  length [3; 4; 2] = length [Some 4.0; None; Some 3.0] /\
  exists v, calculate_gpa [3; 4; 2] [Some 4.0; None; Some 3.0] = ([], Return v) /\
            v == (3 * 4.0 + 2 * 3.0) / (3 + 2).
Proof.
  split; [reflexivity |].
  destruct (calculate_gpa_weighted_mean [3; 4; 2] [Some 4.0; None; Some 3.0]
              eq_refl) as (_ & Hmean & _).
  destruct Hmean as (v & Hrun & Hv).
  - intros E. vm_compute in E. discriminate E.
  - exists v. split; [exact Hrun |]. rewrite Hv. reflexivity.
Defined.

(** [zip] stops at the shorter list, so only the common prefix is read. *)
Lemma zip_common_prefix {A B} (xs : list A) (ys : list B) :
  zip (take (min (length xs) (length ys)) xs) (take (min (length xs) (length ys)) ys)
  = zip xs ys.
Proof.
  revert ys. induction xs as [| x xs IH]; intros [| y ys]; cbn; try reflexivity.
  f_equal. apply IH.
Qed.

Lemma calculate_gpa_returns (cs : list Q) (gps : list grade_point) :
  exists v, calculate_gpa cs gps = ([], Return v).
Proof.
  destruct (calculate_gpa_cases cs gps) as [[_ Hrun] | [_ (v & Hrun & _)]];
    eexists; exact Hrun.
Qed.

(** C7, as stated, fails: on a two-element credit list and a one-element
    point list [calculate_gpa] returns a number. *)
Lemma calculate_gpa_mismatch_not_rejected :
  ~ (forall (cs : list Q) (gps : list grade_point),
       length cs <> length gps -> fails (calculate_gpa cs gps)).
Proof.
  intros Hclaim.
  assert (Hlen : length [3; 4] <> length [Some 4.0]) by (cbn; lia).
  destruct (Hclaim [3; 4] [Some 4.0] Hlen) as [[e He] | [text Hin]].
  - vm_compute in He. discriminate He.
  - vm_compute in Hin. exact Hin.
Qed.

(** C7, amended: on sequences of unequal length [calculate_gpa] signals
    nothing; it returns the number it returns on the two sequences cut to
    the length of the shorter one. *)
Theorem calculate_gpa_mismatch_truncates (cs : list Q) (gps : list grade_point) :
  length cs <> length gps ->
  let n := min (length cs) (length gps) in
  calculate_gpa cs gps = calculate_gpa (take n cs) (take n gps) /\
  (exists v, calculate_gpa cs gps = ([], Return v)) /\
  ~ fails (calculate_gpa cs gps).
Proof.
  intros _ n. split; [| split].
  - unfold calculate_gpa, n. rewrite !zip_common_prefix. reflexivity.
  - apply calculate_gpa_returns.
  - destruct (calculate_gpa_returns cs gps) as [v ->].
    intros [[e He] | [text Hin]]; [discriminate He | exact Hin].
Qed.

Lemma calculate_gpa_mismatch_truncates_witness :
  length [3; 4] <> length [Some 4.0] /\
  calculate_gpa [3; 4] [Some 4.0] = calculate_gpa [3] [Some 4.0].
Proof.
  assert (Hlen : length [3; 4] <> length [Some 4.0]) by (cbn; lia).
  split; [exact Hlen |].
  apply (calculate_gpa_mismatch_truncates [3; 4] [Some 4.0] Hlen).
Defined.

(** *** The aggregate between the least and the greatest point *)

Lemma min_fold_lower (xs : list Q) (m : Q) :
  fold_left (fun m y => if Num.ltb y m then y else m) xs m <= m /\
  Forall (fun y => fold_left (fun m y => if Num.ltb y m then y else m) xs m <= y) xs.
Proof.
  revert m. induction xs as [| x xs IH]; intros m; cbn.
  - split; [lra | constructor].
  - destruct (IH (if Num.ltb x m then x else m)) as [Hle Hall].
    destruct (Num.ltb x m) eqn:E.
    + apply ltb_true in E. split; [lra |]. constructor; [exact Hle | exact Hall].
    + apply ltb_false in E. split; [exact Hle |].
      constructor; [lra | exact Hall].
Qed.

Lemma max_fold_upper (xs : list Q) (m : Q) :
  m <= fold_left (fun m y => if Num.gtb y m then y else m) xs m /\
  Forall (fun y => y <= fold_left (fun m y => if Num.gtb y m then y else m) xs m) xs.
Proof.
  revert m. induction xs as [| x xs IH]; intros m; cbn.
  - split; [lra | constructor].
  - destruct (IH (if Num.gtb x m then x else m)) as [Hle Hall].
    destruct (Num.gtb x m) eqn:E.
    + apply gtb_true in E. split; [lra |]. constructor; [exact Hle | exact Hall].
    + apply gtb_false in E. split; [exact Hle |].
      constructor; [lra | exact Hall].
Qed.

Lemma min_of_lower (xs : list Q) (lo : Q) :
  min_of xs = Some lo -> Forall (fun y => lo <= y) xs.
Proof.
  destruct xs as [| x xs]; [discriminate |]. cbn. intros [= <-].
  destruct (min_fold_lower xs x) as [Hle Hall].
  constructor; [exact Hle | exact Hall].
Qed.

Lemma max_of_upper (xs : list Q) (hi : Q) :
  max_of xs = Some hi -> Forall (fun y => y <= hi) xs.
Proof.
  destruct xs as [| x xs]; [discriminate |]. cbn. intros [= <-].
  destruct (max_fold_upper xs x) as [Hle Hall].
  constructor; [exact Hle | exact Hall].
Qed.

(** With non-negative weights, the weighted sum lies between the bounds of
    the points times the total weight. *)
Lemma weighted_sum_bounds (lo hi : Q) (cs gs : list Q) :
  Forall (Qle 0) cs ->
  Forall (fun g => lo <= g) gs -> Forall (fun g => g <= hi) gs ->
  0 <= denominator cs (Some <$> gs) /\
  lo * denominator cs (Some <$> gs) <= numerator cs (Some <$> gs) /\
  numerator cs (Some <$> gs) <= hi * denominator cs (Some <$> gs).
Proof.
  intros Hcs. revert gs. induction Hcs as [| c cs Hc Hcs IH]; intros gs Hlo Hhi.
  - cbn. lra.
  - destruct gs as [| g gs]; [cbn; lra |].
    inversion Hlo as [| ? ? Hg Hlo']; inversion Hhi as [| ? ? Hg' Hhi']; subst.
    destruct (IH gs Hlo' Hhi') as (Hden & Hlow & Hupp).
    cbn [fmap list_fmap numerator denominator].
    change (list_fmap Q (option Q) Some gs) with (Some <$> gs).
    set (d := denominator cs (Some <$> gs)) in *.
    set (n := numerator cs (Some <$> gs)) in *.
    nra.
Qed.

Lemma denominator_all_counted (cs gs : list Q) :
  length cs = length gs -> denominator cs (Some <$> gs) == Num.sum cs.
Proof.
  revert gs. induction cs as [| c cs IH]; intros [| g gs] Hlen;
    try discriminate Hlen; [reflexivity |].
  cbn [fmap list_fmap denominator].
  change (list_fmap Q (option Q) Some gs) with (Some <$> gs).
  rewrite sum_cons, IH by (cbn in Hlen; lia). reflexivity.
Qed.

(** C9, as stated, fails: one course of 0 credits with point 3.0 gives the
    fallback 0.0, below the least point. *)
Lemma calculate_gpa_zero_credits_below_min :
  ~ (forall (cs gs : list Q) (lo hi : Q),
       length cs = length gs -> Forall (Qle 0) cs ->
       min_of gs = Some lo -> max_of gs = Some hi ->
       exists v, calculate_gpa cs (Some <$> gs) = ([], Return v) /\ lo <= v <= hi).
Proof.
  intros Hclaim.
  destruct (Hclaim [0] [3.0] 3.0 3.0) as (v & Hrun & Hlo & _);
    try reflexivity.
  - constructor; [lra | constructor].
  - vm_compute in Hrun. injection Hrun as <-. vm_compute in Hlo. apply Hlo. reflexivity.
Qed.

(** In the arithmetic of the interpreter the bound is missed by rounding
    even when the credits do not sum to 0: one course of 3 credits at 2.7
    gives 2.7000000000000006, and three courses of 1 credit at 3.7 give
    3.7000000000000006, whichever way [sum] adds. *)
Lemma calculate_gpa_above_max_in_binary64 :
  Forall (fun alg : F64.summation =>
    F64.calculate_gpa alg [3]%float [Some 2.7%float]
      = ([], Return 2.7000000000000006%float) /\
    PrimFloat.ltb 2.7 2.7000000000000006 = true /\
    F64.calculate_gpa alg [1; 1; 1]%float [Some 3.7; Some 3.7; Some 3.7]%float
      = ([], Return 3.7000000000000006%float) /\
    PrimFloat.ltb 3.7 3.7000000000000006 = true)
  [F64.plain; F64.compensated].
Proof.
  repeat constructor; vm_compute; reflexivity.
Qed.

(** C9, amended: in exact arithmetic, for sequences of equal length with
    non-negative credits that do not sum to 0 and no excluded entries, the
    value of [calculate_gpa] lies between the least and the greatest grade
    point. *)
Theorem calculate_gpa_between_min_max (cs gs : list Q) (lo hi : Q) :
  length cs = length gs -> Forall (Qle 0) cs -> ~ Num.sum cs == 0 ->
  min_of gs = Some lo -> max_of gs = Some hi ->
  exists v, calculate_gpa cs (Some <$> gs) = ([], Return v) /\ lo <= v <= hi.
Proof.
  intros Hlen Hcs Hsum Hmin Hmax.
  apply min_of_lower in Hmin. apply max_of_upper in Hmax.
  destruct (weighted_sum_bounds lo hi cs gs Hcs Hmin Hmax) as (Hden & Hlow & Hupp).
  rewrite <- (denominator_all_counted cs gs Hlen) in Hsum.
  destruct (calculate_gpa_cases cs (Some <$> gs)) as [[Hz _] | [_ (v & Hrun & Hv)]];
    [contradiction |].
  exists v. split; [exact Hrun |].
  assert (Hpos : 0 < denominator cs (Some <$> gs)) by lra.
  rewrite Hv. split.
  - apply Qle_shift_div_l; assumption.
  - apply Qle_shift_div_r; assumption.
Qed.

Lemma calculate_gpa_between_min_max_witness :
  exists v, calculate_gpa [3; 4] (Some <$> [4.0; 2.0]) = ([], Return v) /\
            2.0 <= v <= 4.0.
Proof.
  apply (calculate_gpa_between_min_max [3; 4] [4.0; 2.0] 2.0 4.0).
  - reflexivity.
  - repeat constructor; discriminate.
  - intros E. vm_compute in E. discriminate E.
  - reflexivity.
  - reflexivity.
Defined.

(** ** Required-GPA Projector *)

Lemma known_credits_sum (kcs : list (Q * Q)) :
  Num.sum kcs.*1 == known_credit_total kcs.
Proof.
  induction kcs as [| [c g] kcs IH]; [reflexivity |].
  change (((c, g) :: kcs).*1) with (c :: kcs.*1).
  rewrite sum_cons, IH. reflexivity.
Qed.

Lemma known_points_sum (kcs : list (Q * Q)) :
  Num.sum ((fun '(c, g) => c * g) <$> zip kcs.*1 kcs.*2) == known_point_total kcs.
Proof.
  induction kcs as [| [c g] kcs IH]; [reflexivity |].
  change ((fun '(c, g) => c * g) <$> zip ((c, g) :: kcs).*1 ((c, g) :: kcs).*2)
    with (c * g :: ((fun '(c, g) => c * g) <$> zip kcs.*1 kcs.*2)).
  rewrite sum_cons, IH. reflexivity.
Qed.

Lemma known_credit_total_nonneg (kcs : list (Q * Q)) :
  Forall (fun k => 0 <= k.1) kcs -> 0 <= known_credit_total kcs.
Proof.
  induction 1 as [| [c g] kcs Hc _ IH].
  - unfold known_credit_total. cbn [foldr]. lra.
  - change (known_credit_total ((c, g) :: kcs)) with (c + known_credit_total kcs).
    cbn [fst] in Hc. lra.
Qed.

(** Classes with non-negative credits that sum to 0 carry no grade points. *)
Lemma known_point_total_zero (kcs : list (Q * Q)) :
  Forall (fun k => 0 <= k.1) kcs ->
  known_credit_total kcs == 0 -> known_point_total kcs == 0.
Proof.
  induction 1 as [| [c g] kcs Hc Hall IH]; [reflexivity |].
  change (known_credit_total ((c, g) :: kcs)) with (c + known_credit_total kcs).
  change (known_point_total ((c, g) :: kcs)) with (c * g + known_point_total kcs).
  cbn [fst] in Hc.
  intros Hsum. pose proof (known_credit_total_nonneg kcs Hall) as Hnn.
  assert (Hc0 : c == 0) by lra.
  assert (Hrest : known_credit_total kcs == 0) by lra.
  rewrite (IH Hrest), Hc0. ring.
Qed.

(** The set-up when the classes with known grades are asked for. *)
Lemma known_grades_section_asked (fc : Q) (kcs : list (Q * Q)) :
  0 < fc ->
  known_grades_section know_some_grades fc kcs =
    (if Num.ltb (fc - Num.sum kcs.*1) 0
     then [st_error "Known credits exceed total next semester credits."]
     else [],
     Return {| known_credits := Num.sum kcs.*1;
               known_grade_points :=
                 Num.sum ((fun '(c, g) => c * g) <$> zip kcs.*1 kcs.*2);
               remaining_credits := fc - Num.sum kcs.*1 |}).
Proof.
  intros Hfc. unfold known_grades_section.
  apply gtb_true in Hfc. rewrite Hfc. cbn [knows_grades andb].
  destruct (Num.ltb (fc - Num.sum kcs.*1) 0); reflexivity.
Qed.

(** The set-up when they are not. *)
Lemma known_grades_section_skipped (s : scenario) (fc : Q) (kcs : list (Q * Q)) :
  s = no_grades_yet \/ fc <= 0 ->
  known_grades_section s fc kcs =
    ([], Return {| known_credits := 0; known_grade_points := 0;
                   remaining_credits := fc |}).
Proof.
  intros H. unfold known_grades_section.
  assert (Hcond : knows_grades s && Num.gtb fc 0 = false).
  { destruct H as [-> | Hfc]; [reflexivity |].
    apply gtb_false in Hfc. rewrite Hfc. apply andb_false_r. }
  rewrite Hcond. reflexivity.
Qed.

Lemma known_grades_section_returns (s : scenario) (fc : Q) (kcs : list (Q * Q)) :
  exists msgs kv,
    known_grades_section s fc kcs = (msgs, Return kv) /\
    remaining_credits kv == fc - known_credits kv.
Proof.
  destruct s.
  - rewrite known_grades_section_skipped by (left; reflexivity).
    do 2 eexists. split; [reflexivity |]. cbn. ring.
  - destruct (Qlt_le_dec 0 fc) as [Hpos | Hle].
    + rewrite (known_grades_section_asked fc kcs Hpos).
      do 2 eexists. split; [reflexivity |]. cbn. reflexivity.
    + rewrite known_grades_section_skipped by (right; exact Hle).
      do 2 eexists. split; [reflexivity |]. cbn. ring.
Qed.

(** The tab once the set-up has run. *)
Lemma what_if_scenario_after_setup (cg cc d fc : Q) (s : scenario)
    (kcs : list (Q * Q)) (msgs : list ui_msg) (kv : known_vars) :
  known_grades_section s fc kcs = (msgs, Return kv) ->
  what_if_scenario cg cc d fc s kcs =
    (msgs ++ (required_gpa_handler cg cc d fc s kv).1,
     (required_gpa_handler cg cc d fc s kv).2).
Proof.
  intros Hsetup. unfold what_if_scenario. rewrite Hsetup.
  unfold mbind, Py_bind.
  destruct (required_gpa_handler cg cc d fc s kv) as [out r]. reflexivity.
Qed.

(** The handler when no guard stops it. *)
Lemma required_gpa_handler_computes (cg cc d fc : Q) (s : scenario) (kv : known_vars) :
  ~ cc + fc == 0 -> 0 < fc -> (knows_grades s = true -> 0 <= remaining_credits kv) ->
  required_gpa_handler cg cc d fc s kv =
    ([], Return (Some
       (if knows_grades s then
          if Num.gtb (remaining_credits kv) 0
          then (d * (cc + fc) - cg * cc - known_grade_points kv) / remaining_credits kv
          else 0.0
        else (d * (cc + fc) - cg * cc) / fc))).
Proof.
  intros Hbasis Hfc Hrem. unfold required_gpa_handler.
  apply eqb_false in Hbasis. rewrite Hbasis.
  assert (Hfc0 : Num.eqb fc 0 = false) by (apply eqb_false; lra).
  rewrite Hfc0.
  destruct (knows_grades s) eqn:Hs; cbn [andb].
  - specialize (Hrem eq_refl). apply ltb_false in Hrem. rewrite Hrem.
    destruct (Num.gtb (remaining_credits kv) 0) eqn:Hpos; [| reflexivity].
    apply gtb_true in Hpos.
    rewrite truediv_nonzero by lra. reflexivity.
  - apply gtb_true in Hfc. rewrite Hfc.
    apply gtb_true in Hfc. rewrite truediv_nonzero by lra. reflexivity.
Qed.

(** The tab in the scenario without known grades. *)
Lemma what_if_no_grades (cg cc d fc : Q) (kcs : list (Q * Q)) :
  0 <= cc -> 0 < fc ->
  what_if_scenario cg cc d fc no_grades_yet kcs =
    ([], Return (Some ((d * (cc + fc) - cg * cc) / fc))).
Proof.
  intros Hcc Hfc.
  rewrite (what_if_scenario_after_setup cg cc d fc no_grades_yet kcs _ _
             (known_grades_section_skipped no_grades_yet fc kcs (or_introl eq_refl))).
  rewrite required_gpa_handler_computes; [reflexivity | lra | exact Hfc |].
  intros Hs. discriminate Hs.
Qed.

(** The tab in the scenario with known grades, credits left over. *)
Lemma what_if_known_grades (cg cc d fc : Q) (kcs : list (Q * Q)) :
  0 <= cc -> 0 < fc -> 0 < fc - Num.sum kcs.*1 ->
  what_if_scenario cg cc d fc know_some_grades kcs =
    ([], Return (Some
       ((d * (cc + fc) - cg * cc
         - Num.sum ((fun '(c, g) => c * g) <$> zip kcs.*1 kcs.*2))
        / (fc - Num.sum kcs.*1)))).
Proof.
  intros Hcc Hfc Hrem.
  rewrite (what_if_scenario_after_setup cg cc d fc know_some_grades kcs _ _
             (known_grades_section_asked fc kcs Hfc)).
  assert (Hnoerr : Num.ltb (fc - Num.sum kcs.*1) 0 = false) by (apply ltb_false; lra).
  rewrite Hnoerr.
  rewrite required_gpa_handler_computes;
    [| lra | exact Hfc | intros _; cbn [remaining_credits]; lra].
  cbn [knows_grades remaining_credits known_grade_points fst snd app].
  apply gtb_true in Hrem. rewrite Hrem. reflexivity.
Qed.

(** C2: for valid input (non-negative credits) with a positive denominator,
    the tab computes (desired x (current + future credits) - current GPA x
    current credits) / future credits when no grade is known, and
    (desired x (current + future credits) - current GPA x current credits -
    known grade points) / (future credits - known credits) when some are;
    the value is not clamped: on (3.0, 60, 3.5, 15) it is 5.5, above 4.0,
    and on (3.0, 60, 2.0, 15) it is below 0. *)
Theorem what_if_scenario_formula (cg cc d fc : Q) (kcs : list (Q * Q)) :
  0 <= cc -> 0 <= fc -> Forall (fun k => 0 <= k.1) kcs ->
  (0 < fc ->
     what_if_scenario cg cc d fc no_grades_yet kcs =
       ([], Return (Some ((d * (cc + fc) - cg * cc) / fc)))) /\
  (0 < fc - known_credit_total kcs ->
     yields (what_if_scenario cg cc d fc know_some_grades kcs)
       ((d * (cc + fc) - cg * cc - known_point_total kcs)
        / (fc - known_credit_total kcs))) /\
  (exists v, what_if_scenario 3.0 60 3.5 15 no_grades_yet [] = ([], Return (Some v)) /\
             v == 5.5 /\ 4.0 < v /\ result_band v = unattainable) /\
  (exists v, what_if_scenario 3.0 60 2.0 15 no_grades_yet [] = ([], Return (Some v)) /\
             v < 0 /\ result_band v = already_reached).
Proof.
  intros Hcc Hfc Hkcs. split; [| split; [| split]].
  - intros Hpos. apply what_if_no_grades; assumption.
  - intros Hrem. pose proof (known_credit_total_nonneg kcs Hkcs) as Hnn.
    rewrite <- known_credits_sum in Hrem, Hnn.
    eexists. split.
    + apply what_if_known_grades; [exact Hcc | lra | exact Hrem].
    + rewrite known_points_sum, known_credits_sum. reflexivity.
  - eexists. split; [vm_compute; reflexivity |].
    split; [reflexivity | split; reflexivity].
  - eexists. split; [vm_compute; reflexivity |]. split; reflexivity.
Qed.

Lemma what_if_scenario_formula_witness :
  yields (what_if_scenario 3.0 60 3.5 15 know_some_grades [(6, 3.8)])
    ((3.5 * (60 + 15) - 3.0 * 60 - 6 * 3.8) / (15 - 6)).
Proof.
  destruct (what_if_scenario_formula 3.0 60 3.5 15 [(6, 3.8)])
    as (_ & Hknown & _).
  - discriminate.
  - discriminate.
  - repeat constructor. discriminate.
  - destruct Hknown as (x & Hrun & Hx); [reflexivity |].
    exists x. split; [exact Hrun |]. rewrite Hx. reflexivity.
Defined.

(** C10: without known grades, for current credits >= 0 and future credits
    > 0, combining the current standing with the future credits earned at
    the GPA the tab computes gives the desired GPA. *)
Theorem required_gpa_round_trip (cg cc d fc : Q) :
  0 <= cc -> 0 < fc ->
  exists required,
    what_if_scenario cg cc d fc no_grades_yet [] = ([], Return (Some required)) /\
    yields (calculate_cumulative_gpa cg cc required fc) d.
Proof.
  intros Hcc Hfc. eexists. split; [apply what_if_no_grades; assumption |].
  rewrite calculate_cumulative_gpa_nonneg by lra.
  assert (Hne : Num.eqb (cc + fc) 0 = false) by (apply eqb_false; lra).
  rewrite Hne. eexists. split; [reflexivity |].
  field. split; lra.
Qed.

Lemma required_gpa_round_trip_witness :
  exists required,
    what_if_scenario 3.0 60 3.5 15 no_grades_yet [] = ([], Return (Some required)) /\
    yields (calculate_cumulative_gpa 3.0 60 required 15) 3.5.
Proof.
  apply (required_gpa_round_trip 3.0 60 3.5 15); [discriminate | reflexivity].
Defined.

(** *** The guards of the button *)

Lemma required_gpa_handler_no_basis (cg cc d fc : Q) (s : scenario) (kv : known_vars) :
  cc + fc == 0 ->
  required_gpa_handler cg cc d fc s kv =
    ([st_error "Cannot calculate if total credits are zero. Please enter valid credit values."],
     Return None).
Proof.
  intros H. unfold required_gpa_handler. apply eqb_true in H. rewrite H. reflexivity.
Qed.

Lemma required_gpa_handler_no_future (cg cc d fc : Q) (s : scenario) (kv : known_vars) :
  ~ cc + fc == 0 -> fc == 0 ->
  required_gpa_handler cg cc d fc s kv =
    ([st_warning "You need to take credits next semester to change your GPA."],
     Return None).
Proof.
  intros Hbasis H. unfold required_gpa_handler.
  apply eqb_false in Hbasis. apply eqb_true in H. rewrite Hbasis, H. reflexivity.
Qed.

Lemma required_gpa_handler_exceeded (cg cc d fc : Q) (kv : known_vars) :
  ~ cc + fc == 0 -> ~ fc == 0 -> remaining_credits kv < 0 ->
  required_gpa_handler cg cc d fc know_some_grades kv =
    ([st_error "Known credits exceed total next semester credits. Please check your inputs."],
     Return None).
Proof.
  intros Hbasis Hfc H. unfold required_gpa_handler.
  apply eqb_false in Hbasis, Hfc. apply ltb_true in H.
  rewrite Hbasis, Hfc, H. reflexivity.
Qed.

Lemma InvalidInput_after (msgs : list ui_msg) (text : string) :
  InvalidInput (msgs ++ [st_error text], Return None).
Proof.
  split; [reflexivity |]. exists text. cbn [fst]. apply in_or_app. right. left. reflexivity.
Qed.

(** C5, as stated, fails: with 60 current credits and 0 future credits the
    button shows a warning and computes no number, so 0.0 is not returned. *)
Lemma what_if_scenario_no_future_credits_no_value :
  what_if_scenario 3.0 60 3.5 0 no_grades_yet [] =
    ([st_warning "You need to take credits next semester to change your GPA."],
     Return None) /\
  ~ yields (what_if_scenario 3.0 60 3.5 0 no_grades_yet []) 0.0.
Proof.
  split; [vm_compute; reflexivity |].
  intros (x & Hrun & _). vm_compute in Hrun. discriminate Hrun.
Qed.

(** C5, amended: the tab fails with [InvalidInput] when current + future
    credits are 0, and, in the scenario with known grades, when the future
    credits less the known credits are negative; with known grades, current
    credits >= 0 and future credits > 0, it returns 0.0 when the remaining
    credits are 0; when the future credits are 0 and current + future
    credits are not, it shows a warning and returns no number. *)
Theorem what_if_scenario_guards (cg cc d fc : Q) (s : scenario) (kcs : list (Q * Q)) :
  (cc + fc == 0 -> InvalidInput (what_if_scenario cg cc d fc s kcs)) /\
  (forall msgs kv,
     known_grades_section know_some_grades fc kcs = (msgs, Return kv) ->
     fc - known_credits kv < 0 ->
     InvalidInput (what_if_scenario cg cc d fc know_some_grades kcs)) /\
  (0 <= cc -> 0 < fc -> fc - known_credit_total kcs == 0 ->
     what_if_scenario cg cc d fc know_some_grades kcs = ([], Return (Some 0.0))) /\
  (fc == 0 -> ~ cc + fc == 0 ->
     what_if_scenario cg cc d fc s kcs =
       ([st_warning "You need to take credits next semester to change your GPA."],
        Return None)).
Proof.
  split; [| split; [| split]].
  - intros Hbasis.
    destruct (known_grades_section_returns s fc kcs) as (msgs & kv & Hsetup & _).
    rewrite (what_if_scenario_after_setup _ _ _ _ _ _ _ _ Hsetup).
    rewrite required_gpa_handler_no_basis by exact Hbasis.
    apply InvalidInput_after.
  - intros msgs kv Hsetup Hneg.
    destruct (known_grades_section_returns know_some_grades fc kcs)
      as (msgs' & kv' & Hsetup' & Hrem).
    rewrite Hsetup in Hsetup'. injection Hsetup' as <- <-.
    rewrite (what_if_scenario_after_setup _ _ _ _ _ _ _ _ Hsetup).
    destruct (Qeq_dec (cc + fc) 0) as [Hbasis | Hbasis].
    { rewrite required_gpa_handler_no_basis by exact Hbasis.
      apply InvalidInput_after. }
    destruct (Qeq_dec fc 0) as [Hfc | Hfc].
    { exfalso.
      rewrite known_grades_section_skipped in Hsetup by (right; lra).
      injection Hsetup as <- <-. cbn [known_credits] in Hneg. lra. }
    rewrite required_gpa_handler_exceeded by (try assumption; lra).
    apply InvalidInput_after.
  - intros Hcc Hfc Hrem. rewrite <- known_credits_sum in Hrem.
    rewrite (what_if_scenario_after_setup cg cc d fc know_some_grades kcs _ _
               (known_grades_section_asked fc kcs Hfc)).
    assert (Hnoerr : Num.ltb (fc - Num.sum kcs.*1) 0 = false) by (apply ltb_false; lra).
    rewrite Hnoerr.
    rewrite required_gpa_handler_computes;
      [| lra | exact Hfc | intros _; cbn [remaining_credits]; lra].
    cbn [knows_grades remaining_credits fst snd app].
    assert (Hnotpos : Num.gtb (fc - Num.sum kcs.*1) 0 = false) by (apply gtb_false; lra).
    rewrite Hnotpos. reflexivity.
  - intros Hfc Hbasis.
    rewrite (what_if_scenario_after_setup cg cc d fc s kcs _ _
               (known_grades_section_skipped s fc kcs ltac:(right; lra))).
    rewrite required_gpa_handler_no_future by assumption. reflexivity.
Qed.

Lemma what_if_scenario_guards_witness :
  InvalidInput (what_if_scenario 3.0 0 3.5 0 no_grades_yet []) /\
  InvalidInput (what_if_scenario 3.0 60 3.5 3 know_some_grades [(4, 3.0)]) /\
  what_if_scenario 3.0 60 3.5 6 know_some_grades [(6, 3.8)] = ([], Return (Some 0.0)).
Proof.
  split; [| split].
  - apply (what_if_scenario_guards 3.0 0 3.5 0 no_grades_yet []). reflexivity.
  - eapply (what_if_scenario_guards 3.0 60 3.5 3 know_some_grades [(4, 3.0)]).
    + vm_compute. reflexivity.
    + reflexivity.
  - apply (what_if_scenario_guards 3.0 60 3.5 6 know_some_grades [(6, 3.8)]).
    + discriminate.
    + reflexivity.
    + reflexivity.
Defined.

(** *** Known grades folded into the standing *)

Lemma numerator_known (kcs : list (Q * Q)) :
  numerator kcs.*1 (Some <$> kcs.*2) == known_point_total kcs.
Proof.
  induction kcs as [| [c g] kcs IH]; [reflexivity |].
  change (numerator ((c, g) :: kcs).*1 (Some <$> ((c, g) :: kcs).*2))
    with (c * g + numerator kcs.*1 (Some <$> kcs.*2)).
  rewrite IH. reflexivity.
Qed.

Lemma denominator_known (kcs : list (Q * Q)) :
  denominator kcs.*1 (Some <$> kcs.*2) == known_credit_total kcs.
Proof.
  induction kcs as [| [c g] kcs IH]; [reflexivity |].
  change (denominator ((c, g) :: kcs).*1 (Some <$> ((c, g) :: kcs).*2))
    with (c + denominator kcs.*1 (Some <$> kcs.*2)).
  rewrite IH. reflexivity.
Qed.

(** The GPA of the known classes times their credits is their grade points. *)
Lemma known_gpa_points (kcs : list (Q * Q)) :
  Forall (fun k => 0 <= k.1) kcs ->
  exists known_gpa,
    calculate_gpa kcs.*1 (Some <$> kcs.*2) = ([], Return known_gpa) /\
    known_gpa * known_credit_total kcs == known_point_total kcs.
Proof.
  intros Hkcs.
  destruct (calculate_gpa_cases kcs.*1 (Some <$> kcs.*2))
    as [[Hz Hrun] | [Hnz (v & Hrun & Hv)]].
  - exists 0.0. split; [exact Hrun |].
    rewrite denominator_known in Hz.
    rewrite (known_point_total_zero kcs Hkcs Hz), Hz. ring.
  - exists v. split; [exact Hrun |].
    rewrite numerator_known, denominator_known in Hv.
    rewrite denominator_known in Hnz.
    rewrite Hv. field. exact Hnz.
Qed.

(** C8, as stated, fails in the arithmetic of the interpreter: on the
    standing (3.0, 60), desired 3.5, 15 future credits and one known class
    of 6 credits at 3.8, the scenario with known grades asks for
    6.6333333333333337 and the scenario without, run on the combined
    standing and the 9 remaining credits, for 6.633333333333332, whichever
    way [sum] adds. *)
Lemma known_grades_differ_from_remaining_in_binary64 :
  Forall (fun alg : F64.summation =>
    F64.what_if_scenario alg 3.0 60 3.5 15 know_some_grades [(6, 3.8)]%float
      = ([], Return (Some 6.6333333333333337%float)) /\
    F64.calculate_gpa alg [6]%float [Some 3.8%float]
      = ([], Return 3.7999999999999994%float) /\
    F64.calculate_cumulative_gpa 3.0 60 3.7999999999999994 6
      = ([], Return (Some 3.0727272727272728%float)) /\
    F64.what_if_scenario alg 3.0727272727272728 (60 + 6) 3.5 (15 - 6) no_grades_yet []
      = ([], Return (Some 6.633333333333332%float)) /\
    PrimFloat.eqb 6.6333333333333337 6.633333333333332 = false)
  [F64.plain; F64.compensated].
Proof.
  repeat constructor; vm_compute; reflexivity.
Qed.

(** C8, amended: in exact arithmetic, with current credits and the credits
    of each known class non-negative and credits left over, the scenario
    with known grades asks for (desired x (current + future credits) -
    current GPA x current credits - known grade points) / (future credits -
    known credits), and the scenario without known grades, run on the
    standing that combines the known classes into the current one and on
    the future credits less the known credits, evaluates its own formula to
    the same number. *)
Theorem known_grades_reduce_to_remaining (cg cc d fc : Q) (kcs : list (Q * Q)) :
  0 <= cc -> Forall (fun k => 0 <= k.1) kcs -> 0 < fc - Num.sum kcs.*1 ->
  exists known_gpa standing_gpa required required',
    calculate_gpa kcs.*1 (Some <$> kcs.*2) = ([], Return known_gpa) /\
    calculate_cumulative_gpa cg cc known_gpa (Num.sum kcs.*1) =
      ([], Return (Some standing_gpa)) /\
    what_if_scenario cg cc d fc know_some_grades kcs = ([], Return (Some required)) /\
    required == (d * (cc + fc) - cg * cc - known_point_total kcs)
                / (fc - known_credit_total kcs) /\
    what_if_scenario standing_gpa (cc + Num.sum kcs.*1) d
      (fc - Num.sum kcs.*1) no_grades_yet []
      = ([], Return (Some required')) /\
    required' = (d * (cc + Num.sum kcs.*1 + (fc - Num.sum kcs.*1))
                 - standing_gpa * (cc + Num.sum kcs.*1))
                / (fc - Num.sum kcs.*1) /\
    required' == required.
Proof.
  intros Hcc Hkcs Hrem.
  pose proof (known_credit_total_nonneg kcs Hkcs) as Hnn.
  destruct (known_gpa_points kcs Hkcs) as (known_gpa & Hgpa & Hpoints).
  pose proof (known_credits_sum kcs) as Ekc.
  pose proof (known_points_sum kcs) as Ekp.
  set (kc := Num.sum kcs.*1) in *.
  set (kgp := Num.sum ((fun '(c, g) => c * g) <$> zip kcs.*1 kcs.*2)) in *.
  assert (Hkc : 0 <= kc) by lra.
  destruct (calculate_cumulative_gpa_points cg cc known_gpa kc Hcc Hkc)
    as (standing_gpa & Hstanding & Hsp & _).
  exists known_gpa, standing_gpa,
    ((d * (cc + fc) - cg * cc - kgp) / (fc - kc)),
    ((d * (cc + kc + (fc - kc)) - standing_gpa * (cc + kc)) / (fc - kc)).
  split; [exact Hgpa |]. split; [exact Hstanding |].
  split; [apply what_if_known_grades; [exact Hcc | lra | exact Hrem] |].
  split; [rewrite Ekc, Ekp; reflexivity |].
  split; [apply what_if_no_grades; lra |].
  split; [reflexivity |].
  assert (Hsame : d * (cc + kc + (fc - kc)) - standing_gpa * (cc + kc)
                  == d * (cc + fc) - cg * cc - kgp) by nra.
  rewrite Hsame. reflexivity.
Qed.

Lemma known_grades_reduce_to_remaining_witness :
  0 <= 60 /\ Forall (fun k : Q * Q => 0 <= k.1) [(6, 3.8)] /\ 0 < 15 - Num.sum [6] /\
  exists known_gpa standing_gpa required required',
    calculate_gpa [6] [Some 3.8] = ([], Return known_gpa) /\
    calculate_cumulative_gpa 3.0 60 known_gpa 6 = ([], Return (Some standing_gpa)) /\
    what_if_scenario 3.0 60 3.5 15 know_some_grades [(6, 3.8)] =
      ([], Return (Some required)) /\
    required == (3.5 * (60 + 15) - 3.0 * 60 - 6 * 3.8) / (15 - 6) /\
    what_if_scenario standing_gpa (60 + 6) 3.5 (15 - 6) no_grades_yet []
      = ([], Return (Some required')) /\
    required' == required.
Proof.
  assert (H1 : 0 <= 60) by discriminate.
  assert (H2 : Forall (fun k : Q * Q => 0 <= k.1) [(6, 3.8)])
    by (repeat constructor; discriminate).
  assert (H3 : 0 < 15 - Num.sum [6]) by reflexivity.
  split; [exact H1 |]. split; [exact H2 |]. split; [exact H3 |].
  destruct (known_grades_reduce_to_remaining 3.0 60 3.5 15 [(6, 3.8)] H1 H2 H3)
    as (known_gpa & standing_gpa & required & required'
        & Hgpa & Hcum & Hknown & Hformula & Hplain & _ & Hsame).
  exists known_gpa, standing_gpa, required, required'.
  split; [exact Hgpa |]. split; [exact Hcum |]. split; [exact Hknown |].
  split; [rewrite Hformula; reflexivity |]. split; [exact Hplain | exact Hsame].
Defined.

(** ** The worked examples of the specification *)

Example calculate_gpa_empty : calculate_gpa [] [] = ([], Return 0.0).
Proof. reflexivity. Qed.

Example combine_identical_merge :
  yields (calculate_cumulative_gpa 3.4 30 3.4 30) 3.4.
Proof. eexists. split; [vm_compute; reflexivity | reflexivity]. Qed.

Example required_gpa_3_60_35_15 :
  yields (what_if_scenario 3.0 60 3.5 15 no_grades_yet []) 5.5.
Proof. eexists. split; [vm_compute; reflexivity | reflexivity]. Qed.

Example required_gpa_3_60_32_15 :
  yields (what_if_scenario 3.0 60 3.2 15 no_grades_yet []) 4.0.
Proof. eexists. split; [vm_compute; reflexivity | reflexivity]. Qed.

Example required_gpa_known_6_of_15 :
  yields (what_if_scenario 3.0 60 3.5 15 know_some_grades [(6, 3.8)])
    ((3.5 * 75 - 3.0 * 60 - 6 * 3.8) / 9).
Proof. eexists. split; [vm_compute; reflexivity | reflexivity]. Qed.

(** * Further properties of the program *)

(** ** Grade points of letter grades *)

Lemma get_grade_point_default (grade : string) :
  ~ In grade grade_symbols -> get_grade_point grade = Some 0.0.
Proof.
  intros Hnotin. unfold get_grade_point, grade_map.
  cbn [list_to_map foldr uncurry].
  assert (Hne : forall k, In k grade_symbols -> k <> grade)
    by (intros k Hk ->; exact (Hnotin Hk)).
  rewrite !lookup_insert_ne by (apply Hne; cbn; tauto).
  rewrite lookup_empty. reflexivity.
Qed.

Lemma get_grade_point_cases (grade : string) :
  (grade = "Pass"%string /\ get_grade_point grade = None) \/
  (grade <> "Pass"%string /\
   exists g, get_grade_point grade = Some g /\ 0 <= g <= 4.0).
Proof.
  destruct (decide (In grade grade_symbols)) as [Hin | Hnotin].
  - cbn in Hin.
    repeat (destruct Hin as [<- | Hin];
      [ first
          [ left; split; reflexivity
          | right; split; [discriminate |];
            eexists; split; [vm_compute; reflexivity | split; discriminate] ]
      | ]).
    destruct Hin.
  - right. split.
    + intros ->. apply Hnotin. cbn. tauto.
    + exists 0.0. split; [apply get_grade_point_default; exact Hnotin |].
      split; discriminate.
Qed.

(** X1: [get_grade_point] yields the excluded marker [None] for "Pass" and
    for no other string, and every number it yields lies in [0, 4]. *)
Theorem get_grade_point_range (grade : string) :
  (get_grade_point grade = None <-> grade = "Pass"%string) /\
  (forall g, get_grade_point grade = Some g -> 0 <= g <= 4.0).
Proof.
  destruct (get_grade_point_cases grade) as [[Hpass Hnone] | [Hne (g & Hsome & Hg)]].
  - rewrite Hnone. split; [split; [intros _; exact Hpass | reflexivity] |].
    discriminate.
  - rewrite Hsome. split.
    + split; [discriminate | intros E; contradiction].
    + intros g' [= <-]. exact Hg.
Qed.

Lemma get_grade_point_range_witness :
  get_grade_point "B+" = Some 3.3 /\ 0 <= 3.3 <= 4.0.
Proof.
  split; [reflexivity |].
  apply (get_grade_point_range "B+"). reflexivity.
Defined.

(** ** The aggregate over letter grades *)

Lemma weighted_sum_bounds_counted (lo hi : Q) (cs : list Q) (gps : list grade_point) :
  Forall (Qle 0) cs ->
  Forall (fun gp : grade_point => forall g, gp = Some g -> lo <= g <= hi) gps ->
  0 <= denominator cs gps /\
  lo * denominator cs gps <= numerator cs gps /\
  numerator cs gps <= hi * denominator cs gps.
Proof.
  intros Hcs. revert gps. induction Hcs as [| c cs Hc Hcs IH]; intros gps Hgps.
  - cbn [numerator denominator]. lra.
  - destruct gps as [| gp gps]; [cbn [numerator denominator]; lra |].
    inversion Hgps as [| ? ? Hgp Hgps']; subst.
    destruct (IH gps Hgps') as (Hden & Hlow & Hupp).
    destruct gp as [g |]; cbn [numerator denominator].
    + destruct (Hgp g eq_refl) as [Hlo Hhi].
      set (dn := denominator cs gps) in *. set (n := numerator cs gps) in *. nra.
    + repeat split; assumption.
Qed.

(** X2: with non-negative credits, the GPA [calculate_gpa] computes from
    the grade points [get_grade_point] gives to any list of grade strings
    (known symbols or not, of any length) lies in [0, 4]. *)
Theorem calculate_gpa_letter_grades_range (cs : list Q) (grades : list string) :
  Forall (Qle 0) cs ->
  exists v, calculate_gpa cs (get_grade_point <$> grades) = ([], Return v) /\
            0 <= v <= 4.0.
Proof.
  intros Hcs.
  assert (Hgps : Forall (fun gp : grade_point => forall g, gp = Some g -> 0 <= g <= 4.0)
                   (get_grade_point <$> grades)).
  { apply Forall_fmap, Forall_forall. intros grade _ g Hg.
    destruct (get_grade_point_cases grade) as [[_ Hnone] | [_ (g' & Hsome & Hg')]];
      [congruence |].
    rewrite Hsome in Hg. injection Hg as <-. exact Hg'. }
  destruct (weighted_sum_bounds_counted 0 4.0 cs _ Hcs Hgps) as (Hden & Hlow & Hupp).
  destruct (calculate_gpa_cases cs (get_grade_point <$> grades))
    as [[_ Hrun] | [Hnz (v & Hrun & Hv)]].
  - exists 0.0. split; [exact Hrun |]. split; discriminate.
  - exists v. split; [exact Hrun |].
    assert (Hpos : 0 < denominator cs (get_grade_point <$> grades)) by lra.
    rewrite Hv. split.
    + apply Qle_shift_div_l; [exact Hpos | lra].
    + apply Qle_shift_div_r; [exact Hpos | lra].
Qed.

Lemma calculate_gpa_letter_grades_range_witness :
  Forall (Qle 0) [3; 4; 1] /\
  exists v, calculate_gpa [3; 4; 1] (get_grade_point <$> ["A"; "Pass"; "Z"]%string)
              = ([], Return v) /\ 0 <= v <= 4.0.
Proof.
  assert (Hcs : Forall (Qle 0) [3; 4; 1]) by (repeat constructor; discriminate).
  split; [exact Hcs |].
  apply (calculate_gpa_letter_grades_range [3; 4; 1] ["A"; "Pass"; "Z"]%string Hcs).
Defined.

(** ** The combiner as a weighted mean *)

Lemma Qmult_cancel_r (u v t : Q) : ~ t == 0 -> u * t == v * t -> u == v.
Proof.
  intros Ht H. assert (H0 : (u - v) * t == 0) by nra.
  apply Qmult_integral in H0. destruct H0 as [H0 | H0]; [lra | contradiction].
Qed.

(** X5: the combiner does not depend on which standing comes first: with a
    negative credit either order shows the same error, and with
    non-negative credits both orders return the same number. *)
Theorem calculate_cumulative_gpa_symmetric (g c g' c' : Q) :
  (c < 0 \/ c' < 0 ->
     calculate_cumulative_gpa g c g' c' = calculate_cumulative_gpa g' c' g c) /\
  (0 <= c -> 0 <= c' ->
     exists u u',
       calculate_cumulative_gpa g c g' c' = ([], Return (Some u)) /\
       calculate_cumulative_gpa g' c' g c = ([], Return (Some u')) /\
       u == u').
Proof.
  split.
  - intros Hneg. unfold calculate_cumulative_gpa.
    assert (H1 : Num.ltb c 0 || Num.ltb c' 0 = true).
    { apply orb_true_iff. destruct Hneg as [H | H]; [left | right];
        apply ltb_true; exact H. }
    assert (H2 : Num.ltb c' 0 || Num.ltb c 0 = true)
      by (rewrite orb_comm; exact H1).
    rewrite H1, H2. reflexivity.
  - intros Hc Hc'.
    destruct (calculate_cumulative_gpa_points g c g' c' Hc Hc') as (u & Hu & Hpu & Hzu).
    destruct (calculate_cumulative_gpa_points g' c' g c Hc' Hc) as (u' & Hu' & Hpu' & Hzu').
    exists u, u'. split; [exact Hu |]. split; [exact Hu' |].
    destruct (Qeq_dec (c + c') 0) as [E | E].
    + rewrite (Hzu E), Hzu' by (rewrite <- E; ring). reflexivity.
    + apply (Qmult_cancel_r u u' (c + c') E). nra.
Qed.

Lemma calculate_cumulative_gpa_symmetric_witness :
  exists u u',
    calculate_cumulative_gpa 3.0 60 4.0 15 = ([], Return (Some u)) /\
    calculate_cumulative_gpa 4.0 15 3.0 60 = ([], Return (Some u')) /\
    u == u'.
Proof.
  apply (calculate_cumulative_gpa_symmetric 3.0 60 4.0 15); discriminate.
Defined.

(** X6: with non-negative credits and both GPAs in [0, 4] (the range the
    input widgets allow), the combined GPA is in [0, 4] as well, the 0.0
    returned for no credits at all included. *)
Theorem calculate_cumulative_gpa_range (g c g' c' : Q) :
  0 <= c -> 0 <= c' -> 0 <= g <= 4.0 -> 0 <= g' <= 4.0 ->
  exists u,
    calculate_cumulative_gpa g c g' c' = ([], Return (Some u)) /\
    0 <= u <= 4.0.
Proof.
  intros Hc Hc' [Hg0 Hg4] [Hg0' Hg4'].
  rewrite (calculate_cumulative_gpa_nonneg g c g' c' Hc Hc').
  destruct (Num.eqb (c + c') 0) eqn:E.
  - eexists. split; [reflexivity |]. split; discriminate.
  - apply eqb_false in E. assert (Hpos : 0 < c + c') by lra.
    eexists. split; [reflexivity |]. split.
    + apply Qle_shift_div_l; [exact Hpos | nra].
    + apply Qle_shift_div_r; [exact Hpos | nra].
Qed.

Lemma calculate_cumulative_gpa_range_witness :
  0 <= 60 /\ 0 <= 15 /\ 0 <= 3.0 <= 4.0 /\ 0 <= 4.0 <= 4.0 /\
  exists u,
    calculate_cumulative_gpa 3.0 60 4.0 15 = ([], Return (Some u)) /\
    0 <= u <= 4.0.
Proof.
  assert (H1 : 0 <= 60) by discriminate.
  assert (H2 : 0 <= 15) by discriminate.
  assert (H3 : 0 <= 3.0 <= 4.0) by (split; discriminate).
  assert (H4 : 0 <= 4.0 <= 4.0) by (split; discriminate).
  split; [exact H1 |]. split; [exact H2 |]. split; [exact H3 |]. split; [exact H4 |].
  exact (calculate_cumulative_gpa_range 3.0 60 4.0 15 H1 H2 H3 H4).
Defined.

(** ** The "What If Scenario" tab on any input *)

Lemma known_grades_section_messages (s : scenario) (fc : Q) (kcs : list (Q * Q)) :
  exists msgs kv,
    known_grades_section s fc kcs = (msgs, Return kv) /\
    (msgs = [] \/
     (s = know_some_grades /\ Num.ltb (remaining_credits kv) 0 = true)).
Proof.
  destruct s.
  - rewrite known_grades_section_skipped by (left; reflexivity).
    do 2 eexists. split; [reflexivity | left; reflexivity].
  - destruct (Qlt_le_dec 0 fc) as [Hpos | Hle].
    + rewrite (known_grades_section_asked fc kcs Hpos).
      do 2 eexists. split; [reflexivity |]. cbn [remaining_credits].
      destruct (Num.ltb (fc - Num.sum kcs.*1) 0);
        [right; split; reflexivity | left; reflexivity].
    + rewrite known_grades_section_skipped by (right; exact Hle).
      do 2 eexists. split; [reflexivity | left; reflexivity].
Qed.

Lemma required_gpa_handler_outcome (cg cc d fc : Q) (s : scenario) (kv : known_vars) :
  (exists x, required_gpa_handler cg cc d fc s kv = ([], Return (Some x)) /\
             (s = know_some_grades -> Num.ltb (remaining_credits kv) 0 = false)) \/
  (exists m, required_gpa_handler cg cc d fc s kv = ([m], Return None)).
Proof.
  unfold required_gpa_handler.
  destruct (Num.eqb (cc + fc) 0); [right; eexists; reflexivity |].
  destruct (Num.eqb fc 0) eqn:Hfc; [right; eexists; reflexivity |].
  apply eqb_false in Hfc.
  destruct s; cbn [knows_grades andb].
  - left. destruct (Num.gtb fc 0) eqn:Hpos.
    + rewrite (truediv_nonzero _ _ Hfc). eexists. split; [reflexivity | discriminate].
    + eexists. split; [reflexivity | discriminate].
  - destruct (Num.ltb (remaining_credits kv) 0) eqn:Hneg;
      [right; eexists; reflexivity |].
    left. destruct (Num.gtb (remaining_credits kv) 0) eqn:Hpos.
    + apply gtb_true in Hpos. rewrite truediv_nonzero by lra.
      eexists. split; reflexivity.
    + eexists. split; reflexivity.
Qed.

(** X8: on any input, negative credits included, the tab never divides by
    zero: it either computes a required GPA, or computes none and has then
    shown at least one error or warning. *)
Theorem what_if_scenario_outcome (cg cc d fc : Q) (s : scenario) (kcs : list (Q * Q)) :
  (exists x, (what_if_scenario cg cc d fc s kcs).2 = Return (Some x)) \/
  ((what_if_scenario cg cc d fc s kcs).2 = Return None /\
   (what_if_scenario cg cc d fc s kcs).1 <> []).
Proof.
  destruct (known_grades_section_messages s fc kcs) as (msgs & kv & Hsetup & _).
  rewrite (what_if_scenario_after_setup _ _ _ _ _ _ _ _ Hsetup).
  destruct (required_gpa_handler_outcome cg cc d fc s kv)
    as [(x & Hrun & _) | (m & Hrun)]; rewrite Hrun; cbn [fst snd].
  - left. exists x. reflexivity.
  - right. split; [reflexivity |]. intros E. apply app_eq_nil in E.
    destruct E as [_ E]. discriminate E.
Qed.

(** X9: when the known credits exceed the credits of the next semester (both
    positive, current credits non-negative), the error is shown twice, once
    while the classes are entered and once by the button, and no required
    GPA is computed. *)
Theorem what_if_scenario_known_credits_exceed (cg cc d fc : Q) (kcs : list (Q * Q)) :
  0 <= cc -> 0 < fc -> fc - Num.sum kcs.*1 < 0 ->
  what_if_scenario cg cc d fc know_some_grades kcs =
    ([st_error "Known credits exceed total next semester credits.";
      st_error "Known credits exceed total next semester credits. Please check your inputs."],
     Return None).
Proof.
  intros Hcc Hfc Hneg.
  rewrite (what_if_scenario_after_setup cg cc d fc know_some_grades kcs _ _
             (known_grades_section_asked fc kcs Hfc)).
  rewrite required_gpa_handler_exceeded by (cbn [remaining_credits]; lra).
  apply ltb_true in Hneg. rewrite Hneg. reflexivity.
Qed.

Lemma what_if_scenario_known_credits_exceed_witness :
  what_if_scenario 3.0 60 3.5 3 know_some_grades [(4, 3.0)] =
    ([st_error "Known credits exceed total next semester credits.";
      st_error "Known credits exceed total next semester credits. Please check your inputs."],
     Return None).
Proof.
  apply (what_if_scenario_known_credits_exceed 3.0 60 3.5 3 [(4, 3.0)]);
    [discriminate | reflexivity | reflexivity].
Defined.

(** ** How the required GPA moves with its inputs *)

Lemma Qdiv_mult_cancel (n t : Q) : ~ t == 0 -> n / t * t == n.
Proof. intros Ht. field. exact Ht. Qed.

(** X10: for current credits >= 0 and future credits > 0, a higher desired
    GPA never lowers the required GPA, in either scenario (with known
    grades: while credits are left over). *)
Theorem required_gpa_monotone (cg cc d1 d2 fc : Q) (kcs : list (Q * Q)) :
  0 <= cc -> 0 < fc -> d1 <= d2 ->
  (exists r1 r2,
     what_if_scenario cg cc d1 fc no_grades_yet kcs = ([], Return (Some r1)) /\
     what_if_scenario cg cc d2 fc no_grades_yet kcs = ([], Return (Some r2)) /\
     r1 <= r2) /\
  (0 < fc - Num.sum kcs.*1 ->
   exists r1 r2,
     what_if_scenario cg cc d1 fc know_some_grades kcs = ([], Return (Some r1)) /\
     what_if_scenario cg cc d2 fc know_some_grades kcs = ([], Return (Some r2)) /\
     r1 <= r2).
Proof.
  intros Hcc Hfc Hd. split.
  - do 2 eexists. split; [apply what_if_no_grades; assumption |].
    split; [apply what_if_no_grades; assumption |].
    apply Qle_shift_div_l; [exact Hfc |].
    rewrite Qdiv_mult_cancel by lra. nra.
  - intros Hrem.
    do 2 eexists. split; [apply what_if_known_grades; assumption |].
    split; [apply what_if_known_grades; assumption |].
    apply Qle_shift_div_l; [exact Hrem |].
    rewrite Qdiv_mult_cancel by lra. nra.
Qed.

Lemma required_gpa_monotone_witness :
  exists r1 r2,
    what_if_scenario 3.0 60 3.2 15 know_some_grades [(6, 3.8)] = ([], Return (Some r1)) /\
    what_if_scenario 3.0 60 3.5 15 know_some_grades [(6, 3.8)] = ([], Return (Some r2)) /\
    r1 <= r2.
Proof.
  apply (required_gpa_monotone 3.0 60 3.2 3.5 15 [(6, 3.8)]);
    first [discriminate | reflexivity].
Defined.

(** ** The "Current Semester Performance" tab *)

Lemma enter_classes_run (i : nat) (classes : list (Q * Q)) (valid_entries : bool) :
  enter_classes i classes valid_entries =
    (entry_errors i classes,
     Return (valid_entries && forallb (fun k => negb (Num.ltb k.1 0)) classes)).
Proof.
  revert i valid_entries. induction classes as [| [c g] classes IH]; intros i v.
  - cbn [enter_classes entry_errors forallb]. rewrite andb_true_r. reflexivity.
  - cbn [enter_classes entry_errors forallb fst].
    destruct (Num.ltb c 0).
    + unfold mbind, Py_bind, show, mret, Py_ret. rewrite IH.
      cbn [negb andb app]. rewrite andb_false_r. reflexivity.
    + unfold mbind, Py_bind, mret, Py_ret. rewrite IH.
      cbn [negb andb app]. reflexivity.
Qed.

Lemma forallb_nonneg (classes : list (Q * Q)) :
  forallb (fun k => negb (Num.ltb k.1 0)) classes = true <->
  Forall (fun k => 0 <= k.1) classes.
Proof.
  rewrite forallb_forall, Forall_forall. split; intros H k Hk.
  - apply list_elem_of_In in Hk. specialize (H k Hk).
    apply negb_true_iff, ltb_false in H. exact H.
  - apply list_elem_of_In in Hk. specialize (H k Hk).
    apply negb_true_iff, ltb_false. exact H.
Qed.

Lemma entry_errors_none (i : nat) (classes : list (Q * Q)) :
  Forall (fun k => 0 <= k.1) classes -> entry_errors i classes = [].
Proof.
  intros H. revert i. induction H as [| [c g] classes Hc _ IH]; intros i;
    [reflexivity |].
  cbn [entry_errors]. cbn [fst] in Hc. apply ltb_false in Hc. rewrite Hc.
  apply IH.
Qed.

Lemma entry_errors_named (i j : nat) (classes : list (Q * Q)) (c g : Q) :
  classes !! j = Some (c, g) -> c < 0 ->
  In (st_error ("Class " +:+ pretty (i + j + 1)%nat
                +:+ ": Credits must be a non-negative number."))
     (entry_errors i classes).
Proof.
  revert i j. induction classes as [| [c0 g0] classes IH]; intros i j Hj Hneg;
    [discriminate Hj |].
  cbn [entry_errors]. apply in_or_app. destruct j as [| j].
  - injection Hj as -> ->. left. apply ltb_true in Hneg. rewrite Hneg.
    replace (i + 0 + 1)%nat with (i + 1)%nat by lia. left. reflexivity.
  - right. replace (i + S j + 1)%nat with (S i + j + 1)%nat by lia.
    apply IH; assumption.
Qed.

Lemma semester_handler_refuses (g c : Q) (valid_entries : bool) (cs gs : list Q) :
  valid_entries = false \/ Num.sum cs == 0 ->
  semester_handler g c valid_entries cs gs =
    ([st_warning "Please enter valid credits and GPA for all classes."], Return None).
Proof.
  intros H. unfold semester_handler.
  assert (Hcond : negb valid_entries || Num.eqb (Num.sum cs) 0 = true).
  { apply orb_true_iff. destruct H as [-> | H]; [left; reflexivity | right].
    apply eqb_true. exact H. }
  rewrite Hcond. reflexivity.
Qed.

Lemma semester_handler_computes (g c : Q) (cs gs : list Q) :
  0 < Num.sum cs -> 0 <= c ->
  semester_handler g c true cs gs =
    ([], Return (Some
       {| semester_gpa := Num.sum ((fun '(c, g) => c * g) <$> zip cs gs) / Num.sum cs;
          semester_total_credits := Num.sum cs;
          updated_overall_gpa :=
            Some ((g * c
                   + Num.sum ((fun '(c, g) => c * g) <$> zip cs gs) / Num.sum cs
                     * Num.sum cs)
                  / (c + Num.sum cs));
          updated_total_credits := c + Num.sum cs |})).
Proof.
  intros Hsum Hc. unfold semester_handler. cbn [negb orb].
  assert (Hne : Num.eqb (Num.sum cs) 0 = false) by (apply eqb_false; lra).
  rewrite Hne. pose proof Hsum as Hpos. apply gtb_true in Hpos. rewrite Hpos.
  rewrite truediv_nonzero by lra.
  unfold mbind, Py_bind. cbv beta iota.
  rewrite calculate_cumulative_gpa_nonneg by lra.
  assert (Hne' : Num.eqb (c + Num.sum cs) 0 = false) by (apply eqb_false; lra).
  rewrite Hne'. reflexivity.
Qed.

Lemma semester_handler_negative_standing (g c : Q) (cs gs : list Q) :
  0 < Num.sum cs -> c < 0 ->
  semester_handler g c true cs gs =
    ([st_error "Credits cannot be negative."],
     Return (Some
       {| semester_gpa := Num.sum ((fun '(c, g) => c * g) <$> zip cs gs) / Num.sum cs;
          semester_total_credits := Num.sum cs;
          updated_overall_gpa := None;
          updated_total_credits := c + Num.sum cs |})).
Proof.
  intros Hsum Hc. unfold semester_handler. cbn [negb orb].
  assert (Hne : Num.eqb (Num.sum cs) 0 = false) by (apply eqb_false; lra).
  rewrite Hne. pose proof Hsum as Hpos. apply gtb_true in Hpos. rewrite Hpos.
  rewrite truediv_nonzero by lra.
  unfold mbind at 1, Py_bind at 1. cbv beta iota.
  unfold calculate_cumulative_gpa. apply ltb_true in Hc. rewrite Hc. reflexivity.
Qed.

Lemma current_semester_performance_after_entry (g c : Q) (classes : list (Q * Q)) :
  current_semester_performance g c classes =
    (entry_errors 0 classes
     ++ (semester_handler g c (forallb (fun k => negb (Num.ltb k.1 0)) classes)
           classes.*1 classes.*2).1,
     (semester_handler g c (forallb (fun k => negb (Num.ltb k.1 0)) classes)
        classes.*1 classes.*2).2).
Proof.
  unfold current_semester_performance. rewrite enter_classes_run.
  cbn [andb]. unfold mbind, Py_bind.
  destruct (semester_handler g c _ classes.*1 classes.*2) as [out r]. reflexivity.
Qed.

(** X14: when a class has negative credits or the credits of the classes
    sum to 0 (so with no class at all), the tab computes nothing: after the
    errors for the classes with negative credits it shows the warning
    "Please enter valid credits and GPA for all classes.", whatever the
    current standing. *)
Theorem current_semester_performance_refuses (g c : Q) (classes : list (Q * Q)) :
  Exists (fun k => k.1 < 0) classes \/ Num.sum classes.*1 == 0 ->
  current_semester_performance g c classes =
    (entry_errors 0 classes
     ++ [st_warning "Please enter valid credits and GPA for all classes."],
     Return None).
Proof.
  intros H. rewrite current_semester_performance_after_entry.
  rewrite semester_handler_refuses; [reflexivity |].
  destruct H as [Hneg | Hsum]; [left | right; exact Hsum].
  destruct (forallb _ classes) eqn:E; [| reflexivity].
  apply forallb_nonneg in E. apply Exists_exists in Hneg.
  destruct Hneg as (k & Hk & Hlt). rewrite Forall_forall in E.
  specialize (E k Hk). lra.
Qed.

Lemma current_semester_performance_refuses_witness :
  current_semester_performance 3.0 60 [(3, 4.0); (-1, 2.0)] =
    ([st_error "Class 2: Credits must be a non-negative number.";
      st_warning "Please enter valid credits and GPA for all classes."],
     Return None).
Proof.
  apply (current_semester_performance_refuses 3.0 60 [(3, 4.0); (-1, 2.0)]).
  left. apply Exists_cons_tl, Exists_cons_hd. reflexivity.
Defined.

(** X15: every class entered with negative credits is named in an error
    message, by its position counted from 1. *)
Theorem current_semester_performance_names_class
    (g c : Q) (classes : list (Q * Q)) (j : nat) (credits gpa : Q) :
  classes !! j = Some (credits, gpa) -> credits < 0 ->
  In (st_error ("Class " +:+ pretty (j + 1)%nat
                +:+ ": Credits must be a non-negative number."))
     (current_semester_performance g c classes).1.
Proof.
  intros Hj Hneg. rewrite current_semester_performance_after_entry. cbn [fst].
  apply in_or_app. left.
  exact (entry_errors_named 0 j classes credits gpa Hj Hneg).
Qed.

Lemma current_semester_performance_names_class_witness :
  In (st_error "Class 3: Credits must be a non-negative number.")
     (current_semester_performance 3.0 60 [(3, 4.0); (4, 2.0); (-2, 3.0)]).1.
Proof.
  apply (current_semester_performance_names_class 3.0 60
           [(3, 4.0); (4, 2.0); (-2, 3.0)] 2 (-2) 3.0);
    reflexivity.
Defined.

Lemma current_semester_performance_valid (g c : Q) (classes : list (Q * Q)) :
  Forall (fun k => 0 <= k.1) classes -> ~ Num.sum classes.*1 == 0 ->
  0 < Num.sum classes.*1 /\
  current_semester_performance g c classes =
    ((semester_handler g c true classes.*1 classes.*2).1,
     (semester_handler g c true classes.*1 classes.*2).2).
Proof.
  intros Hall Hsum.
  pose proof (known_credit_total_nonneg classes Hall) as Hnn.
  rewrite <- known_credits_sum in Hnn.
  split; [lra |].
  rewrite current_semester_performance_after_entry.
  rewrite (entry_errors_none 0 classes Hall).
  apply forallb_nonneg in Hall. rewrite Hall. reflexivity.
Qed.

(** X16: for a current standing with credits >= 0 and classes with
    non-negative credits that do not sum to 0, the tab shows no message and
    computes what the two helper functions compute: the semester GPA is the
    value of [calculate_gpa] on the classes, the new overall GPA is the
    value of [calculate_cumulative_gpa] on the current standing and that
    semester GPA, and the new total is the sum of the credits. *)
Theorem current_semester_performance_by_helpers (g c : Q) (classes : list (Q * Q)) :
  0 <= c -> Forall (fun k => 0 <= k.1) classes -> ~ Num.sum classes.*1 == 0 ->
  exists res v u u',
    current_semester_performance g c classes = ([], Return (Some res)) /\
    calculate_gpa classes.*1 (Some <$> classes.*2) = ([], Return v) /\
    semester_gpa res == v /\
    semester_total_credits res = Num.sum classes.*1 /\
    updated_overall_gpa res = Some u /\
    calculate_cumulative_gpa g c v (Num.sum classes.*1) = ([], Return (Some u')) /\
    u == u' /\
    updated_total_credits res = c + Num.sum classes.*1.
Proof.
  intros Hc Hall Hsum.
  destruct (current_semester_performance_valid g c classes Hall Hsum) as [Hpos ->].
  rewrite (semester_handler_computes g c _ _ Hpos Hc). cbn [fst snd].
  destruct (calculate_gpa_cases classes.*1 (Some <$> classes.*2))
    as [[Hz _] | [_ (v & Hrun & Hv)]].
  { exfalso. rewrite denominator_known, <- known_credits_sum in Hz. contradiction. }
  rewrite numerator_known, denominator_known in Hv.
  rewrite <- known_points_sum, <- known_credits_sum in Hv.
  assert (Hne : Num.eqb (c + Num.sum classes.*1) 0 = false) by (apply eqb_false; lra).
  eexists. exists v. eexists.
  exists ((g * c + v * Num.sum classes.*1) / (c + Num.sum classes.*1)).
  split; [reflexivity |]. split; [exact Hrun |].
  cbn [semester_gpa semester_total_credits updated_overall_gpa updated_total_credits].
  split; [symmetry; exact Hv |]. split; [reflexivity |]. split; [reflexivity |].
  split.
  { rewrite (calculate_cumulative_gpa_nonneg g c v _ Hc (Qlt_le_weak _ _ Hpos)).
    rewrite Hne. reflexivity. }
  split; [| reflexivity].
  rewrite Hv. reflexivity.
Qed.

Lemma current_semester_performance_by_helpers_witness :
  exists res v,
    current_semester_performance 3.0 60 [(3, 4.0); (4, 3.0)] = ([], Return (Some res)) /\
    calculate_gpa [3; 4] (Some <$> [4.0; 3.0]) = ([], Return v) /\
    semester_gpa res == v.
Proof.
  destruct (current_semester_performance_by_helpers 3.0 60 [(3, 4.0); (4, 3.0)])
    as (res & v & u & u' & Hres & Hv & Hsame & _).
  - discriminate.
  - repeat constructor; discriminate.
  - intros E. vm_compute in E. discriminate E.
  - exists res, v. repeat (split; [assumption |]). exact Hsame.
Defined.

Lemma class_totals_range (classes : list (Q * Q)) :
  Forall (fun k => 0 <= k.1 /\ 0 <= k.2 <= 4.0) classes ->
  0 <= known_point_total classes /\
  known_point_total classes <= 4.0 * known_credit_total classes.
Proof.
  induction 1 as [| [c g] classes [Hc [Hg0 Hg4]] _ [IH0 IH4]].
  - unfold known_point_total, known_credit_total. cbn [foldr]. split; lra.
  - change (known_credit_total ((c, g) :: classes)) with (c + known_credit_total classes).
    change (known_point_total ((c, g) :: classes)) with (c * g + known_point_total classes).
    cbn [fst snd] in Hc, Hg0, Hg4. split; nra.
Qed.

(** X17: for a current standing with credits >= 0 and GPA in [0, 4] and
    classes with non-negative credits, not summing to 0, and GPAs in [0, 4]
    (the ranges the input widgets allow), the semester GPA and the new
    overall GPA the tab computes are both in [0, 4]. *)
Theorem current_semester_performance_range (g c : Q) (classes : list (Q * Q)) :
  0 <= c -> 0 <= g <= 4.0 ->
  Forall (fun k => 0 <= k.1 /\ 0 <= k.2 <= 4.0) classes ->
  ~ Num.sum classes.*1 == 0 ->
  exists res u,
    current_semester_performance g c classes = ([], Return (Some res)) /\
    0 <= semester_gpa res <= 4.0 /\
    updated_overall_gpa res = Some u /\
    0 <= u <= 4.0.
Proof.
  intros Hc [Hg0 Hg4] Hall Hsum.
  assert (Hnonneg : Forall (fun k : Q * Q => 0 <= k.1) classes).
  { eapply Forall_impl; [exact Hall |]. intros k [Hk _]. exact Hk. }
  destruct (class_totals_range classes Hall) as [Hp0 Hp4].
  destruct (current_semester_performance_valid g c classes Hnonneg Hsum) as [Hpos ->].
  rewrite (semester_handler_computes g c _ _ Hpos Hc). cbn [fst snd].
  pose proof (known_credits_sum classes) as Ekc.
  pose proof (known_points_sum classes) as Ekp.
  set (st := Num.sum classes.*1) in *.
  set (sp := Num.sum ((fun '(c, g) => c * g) <$> zip classes.*1 classes.*2)) in *.
  pose proof (Qdiv_mult_cancel sp st ltac:(lra)) as Hs.
  assert (Htot : 0 < c + st) by lra.
  assert (Hsem : 0 <= sp / st <= 4.0).
  { split.
    - apply Qle_shift_div_l; [exact Hpos | lra].
    - apply Qle_shift_div_r; [exact Hpos | lra]. }
  assert (Hgc0 : 0 <= g * c) by nra.
  assert (Hgc4 : g * c <= 4.0 * c) by nra.
  assert (Hall4 : 0 <= (g * c + sp / st * st) / (c + st) <= 4.0).
  { split.
    - apply Qle_shift_div_l; [exact Htot |]. rewrite Hs. lra.
    - apply Qle_shift_div_r; [exact Htot |]. rewrite Hs. lra. }
  do 2 eexists. split; [reflexivity |].
  cbn [semester_gpa updated_overall_gpa].
  split; [exact Hsem |]. split; [reflexivity | exact Hall4].
Qed.

Lemma current_semester_performance_range_witness :
  exists res u,
    current_semester_performance 3.0 60 [(3, 4.0); (4, 3.0)] = ([], Return (Some res)) /\
    0 <= semester_gpa res <= 4.0 /\
    updated_overall_gpa res = Some u /\
    0 <= u <= 4.0.
Proof.
  apply (current_semester_performance_range 3.0 60 [(3, 4.0); (4, 3.0)]).
  - discriminate.
  - split; discriminate.
  - repeat constructor; discriminate.
  - intros E. vm_compute in E. discriminate E.
Defined.

(** X18: with valid classes but negative current credits the semester GPA
    is still computed, while the overall GPA is not: the combiner's error
    "Credits cannot be negative." is shown and the overall GPA is [None]. *)
Theorem current_semester_performance_negative_standing
    (g c : Q) (classes : list (Q * Q)) :
  c < 0 -> Forall (fun k => 0 <= k.1) classes -> ~ Num.sum classes.*1 == 0 ->
  exists res v,
    current_semester_performance g c classes =
      ([st_error "Credits cannot be negative."], Return (Some res)) /\
    updated_overall_gpa res = None /\
    calculate_gpa classes.*1 (Some <$> classes.*2) = ([], Return v) /\
    semester_gpa res == v.
Proof.
  intros Hc Hall Hsum.
  destruct (current_semester_performance_valid g c classes Hall Hsum) as [Hpos ->].
  rewrite (semester_handler_negative_standing g c _ _ Hpos Hc). cbn [fst snd].
  destruct (calculate_gpa_cases classes.*1 (Some <$> classes.*2))
    as [[Hz _] | [_ (v & Hrun & Hv)]].
  { exfalso. rewrite denominator_known, <- known_credits_sum in Hz. contradiction. }
  rewrite numerator_known, denominator_known in Hv.
  rewrite <- known_points_sum, <- known_credits_sum in Hv.
  do 2 eexists. split; [reflexivity |]. split; [reflexivity |].
  split; [exact Hrun |]. cbn [semester_gpa]. symmetry. exact Hv.
Qed.

Lemma current_semester_performance_negative_standing_witness :
  exists res,
    current_semester_performance 3.0 (-5) [(3, 4.0)] =
      ([st_error "Credits cannot be negative."], Return (Some res)) /\
    updated_overall_gpa res = None.
Proof.
  destruct (current_semester_performance_negative_standing 3.0 (-5) [(3, 4.0)])
    as (res & v & Hres & Hnone & _).
  - reflexivity.
  - repeat constructor; discriminate.
  - intros E. vm_compute in E. discriminate E.
  - exists res. split; assumption.
Defined.
